(** * Video upload pipeline: a shallow embedding of the upload handlers

    The repository holds three revisions of [handlerUploadVideo]:
    - the CDN revision ([handler_upload_video.go]): remux, key from
      [getAssetPath], URL [https://<distribution>/<key>];
    - the signed-URL revision: persists [<bucket>,<key>] and resolves a
      presigned URL for the response ([dbVideoToSignedVideo]);
    - the direct revision: random key built inline, static S3 URL, no remux.

    Each is embedded as a computation over an explicit [World] (local
    filesystem, object store, metadata store) that also emits the list of
    external calls it makes, in the order it makes them.  Go's [defer] is a
    stack kept in the handler state and unwound when the handler exits. *)

From Stdlib Require Import ZArith Lia Strings.Ascii Strings.Byte.
From stdpp Require Import base option list gmap strings.

Open Scope Z_scope.

(** ** Errors and results *)

Definition error := string.

Inductive result (A : Type) : Type :=
| Ok (a : A)
| Err (e : error).
Arguments Ok {A} a.
Arguments Err {A} e.

Definition is_ok {A} (r : result A) : bool :=
  match r with Ok _ => true | Err _ => false end.

(** ** Data model *)

Definition UUID := string.

(** Modelled from the spec: the record of [internal/database] (not among the
    sources): identifier, owning user, nullable video reference, nullable
    thumbnail reference. *)
Record Video := {
  ID : UUID;
  UserID : UUID;
  VideoURL : option string;
  ThumbnailURL : option string
}.

Definition set_VideoURL (video : Video) (url : string) : Video :=
  {| ID := ID video; UserID := UserID video;
     VideoURL := Some url; ThumbnailURL := ThumbnailURL video |}.

(** The [VideoMeta] declaration is not among the sources; its shape is the one
    [getVideoAspectRatio] reads: a list of streams, each with a codec type and
    a display aspect ratio. *)
Record StreamInfo := {
  CodecType : string;
  DisplayAspectRatio : string
}.

Record VideoMeta := { Streams : list StreamInfo }.

(** The fields of [apiConfig] the handlers read. *)
Record apiConfig := {
  jwtSecret : string;
  s3Bucket : string;
  s3Region : string;
  s3CfDistribution : string
}.

Record S3Object := {
  Body : list byte;
  ContentType : string
}.

(** Everything a request can change: temporary files on the local disk, the
    objects of the store (by bucket and key) and the video records. *)
Record World := {
  fs : gmap string (list byte);
  s3 : gmap (string * string) S3Object;
  db : gmap UUID Video
}.

Definition set_fs (f : gmap string (list byte) -> gmap string (list byte)) (w : World) : World :=
  {| fs := f (fs w); s3 := s3 w; db := db w |}.
Definition set_s3 (f : gmap (string * string) S3Object -> gmap (string * string) S3Object)
    (w : World) : World :=
  {| fs := fs w; s3 := f (s3 w); db := db w |}.
Definition set_db (f : gmap UUID Video -> gmap UUID Video) (w : World) : World :=
  {| fs := fs w; s3 := s3 w; db := f (db w) |}.

(** ** The multipart request, as far as the handlers use [net/http] *)

Definition MIMEHeader := gmap string (list string).

(** [Header.Get]: the first value of the key, the empty string without one. *)
Definition Header_Get (h : MIMEHeader) (key : string) : string :=
  match h !! key with
  | Some (v :: _) => v
  | _ => EmptyString
  end.

Record FileHeader := {
  Filename : string;
  Header : MIMEHeader;
  content : list byte
}.

Record Form := { File : gmap string (list FileHeader) }.

(** [MultipartForm] is the field [r.MultipartForm], nil until a parse
    succeeds; [ReadForm] is what reading the body as a multipart form gives,
    with the limit the handler passes.  It is one answer for the request: a
    body that did not read as a form is taken not to read as one when
    [FormFile] tries again, whereas [net/http] would read what the first
    attempt left of the body. *)
Record Request := {
  PathValue : string -> string;
  ReqHeader : MIMEHeader;
  MultipartForm : option Form;
  ReadForm : result Form
}.

Definition set_MultipartForm (r : Request) (f : Form) : Request :=
  {| PathValue := PathValue r; ReqHeader := ReqHeader r;
     MultipartForm := Some f; ReadForm := ReadForm r |}.

(** [r.ParseMultipartForm]: keeps a form already parsed, otherwise reads the
    body; on an error [r.MultipartForm] stays nil. *)
Definition ParseMultipartForm (r : Request) : option error * Request :=
  match MultipartForm r with
  | Some _ => (None, r)
  | None =>
      match ReadForm r with
      | Err e => (Some e, r)
      | Ok f => (None, set_MultipartForm r f)
      end
  end.

(** [r.FormFile key]: parses when there is no form yet (so also after a
    parse that failed) and hands that error back; then the first file under
    [key], or [http: no such file]. *)
Definition FormFile (r : Request) (key : string) : result FileHeader * Request :=
  let '(perr, r') :=
    match MultipartForm r with
    | None => ParseMultipartForm r
    | Some _ => (None, r)
    end in
  match perr with
  | Some e => (Err e, r')
  | None =>
      match MultipartForm r' with
      | Some f =>
          match File f !! key with
          | Some (fh :: _) => (Ok fh, r')
          | _ => (Err "http: no such file", r')
          end
      | None => (Err "http: no such file", r')
      end
  end.

(** ** External calls *)

Inductive Payload :=
| PError (msg : string)
| PVideo (v : Video).

Inductive Event :=
| ERun (name : string) (args : list string)
| ECreateTemp (name : string)
| ERemove (path : string)
| EClose (what : string)
| ERemoveAll
| EPutObject (bucket key contentType : string) (body : list byte)
| EUpdateVideo (v : Video) (err : option error)
| EPresign (bucket key : string) (expires : Z)
| ERespond (code : Z) (payload : Payload).

(** What the outside world answers during one request; the handlers are
    deterministic given these answers.  [ffprobe] gives the standard output of
    the process or its error; [ffmpeg] its exit error and the file it left at
    the output path, if any; [io_Copy] the bytes that reached the destination
    and the error that stopped the copy; [rand_source] the bytes [crypto/rand]
    delivers.  [getAssetPath] and [mediaTypeToExt] are helpers of the
    repository that are not among the sources: their results are taken as
    given. *)
Record Env := {
  uuid_Parse : string -> result UUID;
  auth_GetBearerToken : MIMEHeader -> result string;
  auth_ValidateJWT : string -> string -> result UUID;
  mime_parse : string -> result string;
  os_CreateTemp : string -> string -> result string;
  io_Copy : list byte -> list byte * option error;
  ffprobe : list string -> result (list byte);
  json_Unmarshal : list byte -> result VideoMeta;
  ffmpeg : list string -> option error * option (list byte);
  s3_PutObject : string -> string -> option error;
  db_UpdateVideo : Video -> option error;
  s3_PresignGetObject : string -> string -> Z -> result string;
  rand_source : list byte;
  getAssetPath : string -> string;
  mediaTypeToExt : string -> string
}.

(** [mime.ParseMediaType] rejects the empty string ([mime: no media type]);
    on any other header value the answer is the environment's. *)
Definition mime_ParseMediaType (env : Env) (v : string) : result string :=
  if decide (v = EmptyString) then Err "mime: no media type" else mime_parse env v.

Definition StatusBadRequest : Z := 400.
Definition StatusUnauthorized : Z := 401.
Definition StatusInternalServerError : Z := 500.

(** [time.Second], in nanoseconds as [time.Duration] counts. *)
Definition time_Second : Z := 1000000000.

(** ** Probe: [getVideoAspectRatio] *)

Definition ffprobe_args (filepath : string) : list string :=
  ["-v"; "error"; "-print_format"; "json"; "-show_streams"; filepath].

(** The [for ... range meta.Streams] loop with the [return "other"] after it. *)
Fixpoint scanStreams (streams : list StreamInfo) : string :=
  match streams with
  | [] => "other"
  | streamInfo :: rest =>
      if decide (CodecType streamInfo ≠ "video") then scanStreams rest
      else if decide (DisplayAspectRatio streamInfo = "16:9"
                      ∨ DisplayAspectRatio streamInfo = "9:16")
           then DisplayAspectRatio streamInfo
           else scanStreams rest
  end.

(** The probe only spawns [ffprobe] and reads its output: it gives a result
    and the call it made, and leaves the world alone. *)
Definition getVideoAspectRatio (env : Env) (filepath : string)
    : result string * list Event :=
  let run := [ERun "ffprobe" (ffprobe_args filepath)] in
  match ffprobe env (ffprobe_args filepath) with
  | Err err => (Err err, run)
  | Ok buffer =>
      match json_Unmarshal env buffer with
      | Err err => (Err err, run)
      | Ok meta => (Ok (scanStreams (Streams meta)), run)
      end
  end.

(** The [if ratio == "16:9" ... else if ratio == "9:16" ...] of the handlers. *)
Definition orientation (ratio : string) : string :=
  if decide (ratio = "16:9") then "landscape"
  else if decide (ratio = "9:16") then "portrait"
  else ratio.

(** ** Remux: [processVideoForFastStart] *)

Definition ffmpeg_args (filepath output : string) : list string :=
  ["-i"; filepath; "-c"; "copy"; "-movflags"; "faststart"; "-f"; "mp4"; output].

(** [os.Stat] followed by [Size()]: an error for a missing file. *)
Definition os_Stat (w : World) (path : string) : result Z :=
  match fs w !! path with
  | Some c => Ok (Z.of_nat (length c))
  | None => Err ("stat " +:+ path +:+ ": no such file or directory")
  end.

(** The world once [ffmpeg] has run: [Some c] is the file it left at the
    output path, [None] leaves the path as it was. *)
Definition after_ffmpeg (env : Env) (filepath : string) (w : World) : World :=
  match snd (ffmpeg env (ffmpeg_args filepath (filepath +:+ ".processing"))) with
  | Some c => set_fs (insert (filepath +:+ ".processing") c) w
  | None => w
  end.

Definition processVideoForFastStart (env : Env) (filepath : string) (w : World)
    : result string * World * list Event :=
  let output := filepath +:+ ".processing" in
  let run := [ERun "ffmpeg" (ffmpeg_args filepath output)] in
  let w' := after_ffmpeg env filepath w in
  match fst (ffmpeg env (ffmpeg_args filepath output)) with
  | Some err => (Err err, w', run)
  | None =>
      match os_Stat w' output with
      | Err err => (Err ("could not stat processed file: " +:+ err), w', run)
      | Ok size =>
          if decide (size = 0) then (Err "processed file is empty", w', run)
          else (Ok output, w', run)
      end
  end.

(** ** Key derivation: [crypto/rand] and [base64.RawURLEncoding] *)

(** [make([]byte, n)] then [rand.Read]: the buffer keeps its length whatever
    the source delivers. *)
Definition rand_Read (env : Env) (n : nat) : list byte :=
  take n (rand_source env ++ replicate n x00).

Definition encodeURL : string :=
  "ABCDEFGHIJKLMNOPQRSTUVWXYZabcdefghijklmnopqrstuvwxyz0123456789-_".

(** Six bits, most significant first. *)
Definition sextet : Type := bool * bool * bool * bool * bool * bool.

Definition bit (b : bool) : nat := if b then 1%nat else 0%nat.

Definition sextet_index (s : sextet) : nat :=
  let '(b5, b4, b3, b2, b1, b0) := s in
  (32 * bit b5 + 16 * bit b4 + 8 * bit b3 + 4 * bit b2 + 2 * bit b1 + bit b0)%nat.

Definition encode_char (s : sextet) : ascii :=
  default "="%char (String.get (sextet_index s) encodeURL).

(** The four sextets of a full group, and the three and two of a tail of two
    bytes and of one byte (the missing bits are zero, no padding is added).
    [Byte.to_bits] lists a byte's bits least significant first. *)
Definition group3 (a b c : byte) : sextet * sextet * sextet * sextet :=
  let '(a0, (a1, (a2, (a3, (a4, (a5, (a6, a7))))))) := Byte.to_bits a in
  let '(b0, (b1, (b2, (b3, (b4, (b5, (b6, b7))))))) := Byte.to_bits b in
  let '(c0, (c1, (c2, (c3, (c4, (c5, (c6, c7))))))) := Byte.to_bits c in
  ((a7, a6, a5, a4, a3, a2), (a1, a0, b7, b6, b5, b4),
   (b3, b2, b1, b0, c7, c6), (c5, c4, c3, c2, c1, c0)).

Fixpoint EncodeToString (src : list byte) : string :=
  match src with
  | [] => EmptyString
  | [a] =>
      let '(s1, s2, _, _) := group3 a x00 x00 in
      String (encode_char s1) (String (encode_char s2) EmptyString)
  | [a; b] =>
      let '(s1, s2, s3, _) := group3 a b x00 in
      String (encode_char s1) (String (encode_char s2) (String (encode_char s3) EmptyString))
  | a :: b :: c :: rest =>
      let '(s1, s2, s3, s4) := group3 a b c in
      String (encode_char s1) (String (encode_char s2)
        (String (encode_char s3) (String (encode_char s4) (EncodeToString rest))))
  end.

(** The key of the direct revision: [fmt.Sprintf("%v/%v.mp4", ratio, rawUrlEncoding)]. *)
Definition random_key (ratio : string) (randName : list byte) : string :=
  ratio +:+ "/" +:+ EncodeToString randName +:+ ".mp4".

(** ** [strings.Split] on a one-character separator *)

Fixpoint strings_Split (s : string) (sep : ascii) : list string :=
  match s with
  | EmptyString => [EmptyString]
  | String c s' =>
      if decide (c = sep) then EmptyString :: strings_Split s' sep
      else match strings_Split s' sep with
           | first :: others => String c first :: others
           | [] => [String c EmptyString]
           end
  end.

Fixpoint contains (s : string) (c : ascii) : bool :=
  match s with
  | EmptyString => false
  | String c' s' => bool_decide (c' = c) || contains s' c
  end.

(** ** Handler computations

    A handler step reads and changes the handler state, emits the external
    calls it makes, and either goes on with a value, executes [return], or
    panics.  [deferred] is the stack of [defer]red calls, last pushed first. *)

Inductive Deferred :=
| DClose (what : string)
| DRemoveAll
| DRemove (path : string).

Record HState := {
  world : World;
  req : Request;
  deferred : list Deferred
}.

Inductive Flow (A : Type) : Type :=
| Next (a : A)
| Returned
| Panicked.
Arguments Next {A} a.
Arguments Returned {A}.
Arguments Panicked {A}.

Definition Handler (A : Type) : Type := HState -> Flow A * HState * list Event.

Definition hret {A} (a : A) : Handler A := fun st => (Next a, st, []).

Definition hbind {A B} (k : A -> Handler B) (m : Handler A) : Handler B :=
  fun st =>
    match m st with
    | (Next a, st', l) => let '(f, st'', l') := k a st' in (f, st'', l ++ l')
    | (Returned, st', l) => (Returned, st', l)
    | (Panicked, st', l) => (Panicked, st', l)
    end.

#[global] Instance handler_ret : MRet Handler := @hret.
#[global] Instance handler_bind : MBind Handler := @hbind.

Definition hreturn {A} : Handler A := fun st => (Returned, st, []).
Definition hpanic {A} : Handler A := fun st => (Panicked, st, []).

Definition emit (e : Event) : Handler unit := fun st => (Next tt, st, [e]).

Definition defer (d : Deferred) : Handler unit :=
  fun st => (Next tt, {| world := world st; req := req st;
                         deferred := d :: deferred st |}, []).

Definition getReq : Handler Request := fun st => (Next (req st), st, []).
Definition getWorld : Handler World := fun st => (Next (world st), st, []).

Definition setWorld (w : World) : Handler unit :=
  fun st => (Next tt, {| world := w; req := req st; deferred := deferred st |}, []).
Definition setReq (r : Request) : Handler unit :=
  fun st => (Next tt, {| world := world st; req := r; deferred := deferred st |}, []).

(** Modelled from the spec: [respondWithError] and [respondWithJSON] (not
    among the sources) send the status with a short message, or with the
    record; the error detail is logged only. *)
Definition respondWithError (code : Z) (msg : string) (err : option error)
    : Handler unit :=
  emit (ERespond code (PError msg)).

Definition respondWithJSON (code : Z) (payload : Video) : Handler unit :=
  emit (ERespond code (PVideo payload)).

(** [if err != nil { respondWithError(w, code, msg, err); return }] after a
    call that gives a value and an error, and after one that gives an error. *)
Definition orRespond {A} (res : result A) (code : Z) (msg : string) : Handler A :=
  match res with
  | Ok a => hret a
  | Err err => respondWithError code msg (Some err);; hreturn
  end.

Definition orRespondErr (err : option error) (code : Z) (msg : string)
    : Handler unit :=
  match err with
  | None => hret tt
  | Some e => respondWithError code msg (Some e);; hreturn
  end.

(** *** The calls of the handlers *)

(** Modelled from the spec: [cfg.db.GetVideo] and [cfg.db.UpdateVideo] of
    [internal/database] (not among the sources): get by identifier or an
    error; update writes the record under its identifier, or fails and writes
    nothing. *)
Definition db_GetVideo (videoID : UUID) : Handler (result Video) :=
  w ← getWorld;
  match db w !! videoID with
  | Some video => hret (Ok video)
  | None => hret (Err "sql: no rows in result set")
  end.

Definition db_UpdateVideo_call (env : Env) (video : Video) : Handler (option error) :=
  w ← getWorld;
  emit (EUpdateVideo video (db_UpdateVideo env video));;
  match db_UpdateVideo env video with
  | Some err => hret (Some err)
  | None => setWorld (set_db (insert (ID video) video) w);; hret None
  end.

(** [maxMemory] is how much of the file parts [mime/multipart] keeps in
    memory; what is beyond goes to temporary files.  It does not bound the
    size of an upload, and the answer of the read is [ReadForm] whatever its
    value. *)
Definition r_ParseMultipartForm (maxMemory : Z) : Handler (option error) :=
  r ← getReq;
  let '(err, r') := ParseMultipartForm r in
  setReq r';; hret err.

Definition r_FormFile (key : string) : Handler (result FileHeader) :=
  r ← getReq;
  let '(res, r') := FormFile r key in
  setReq r';; hret res.

(** [os.CreateTemp]: a new empty file under the name the system picks. *)
Definition os_CreateTemp_call (env : Env) (dir pattern : string)
    : Handler (result string) :=
  w ← getWorld;
  match os_CreateTemp env dir pattern with
  | Err err => hret (Err err)
  | Ok name =>
      setWorld (set_fs (insert name []) w);;
      emit (ECreateTemp name);;
      hret (Ok name)
  end.

(** [io.Copy(tmpFile, src)]: the file holds what was written, also when the
    copy stops with an error. *)
Definition io_Copy_call (env : Env) (tmpFile : string) (src : list byte)
    : Handler (option error) :=
  w ← getWorld;
  let '(written, err) := io_Copy env src in
  setWorld (set_fs (insert tmpFile written) w);;
  hret err.

(** [tmpFile.Seek(0, io.SeekStart)]: files are whole contents here, the read
    position is not part of the state. *)
Definition Seek_start (tmpFile : string) : Handler unit := hret tt.

Definition getVideoAspectRatio_call (env : Env) (filepath : string)
    : Handler (result string) :=
  fun st => let '(res, l) := getVideoAspectRatio env filepath in (Next res, st, l).

Definition processVideoForFastStart_call (env : Env) (filepath : string)
    : Handler (result string) :=
  fun st =>
    let '(res, w', l) := processVideoForFastStart env filepath (world st) in
    (Next res, {| world := w'; req := req st; deferred := deferred st |}, l).

(** [os.Open]: the contents, or an error for a missing file. *)
Definition os_Open (path : string) : Handler (result (list byte)) :=
  w ← getWorld;
  match fs w !! path with
  | Some c => hret (Ok c)
  | None => hret (Err ("open " +:+ path +:+ ": no such file or directory"))
  end.

(** [cfg.s3Client.PutObject]: on success the object is in the bucket. *)
Definition s3_PutObject_call (env : Env) (bucket key : string) (body : list byte)
    (contentType : string) : Handler (option error) :=
  w ← getWorld;
  emit (EPutObject bucket key contentType body);;
  match s3_PutObject env bucket key with
  | Some err => hret (Some err)
  | None =>
      setWorld (set_s3 (insert (bucket, key)
                          {| Body := body; ContentType := contentType |}) w);;
      hret None
  end.

(** *** Leaving the handler: the deferred calls run, last deferred first.
    [os.Remove] deletes the file (its error, if any, is dropped by [defer]). *)
Definition run_one (d : Deferred) (w : World) : World * list Event :=
  match d with
  | DClose what => (w, [EClose what])
  | DRemoveAll => (w, [ERemoveAll])
  | DRemove path => (set_fs (delete path) w, [ERemove path])
  end.

Fixpoint run_deferred (ds : list Deferred) (w : World) : World * list Event :=
  match ds with
  | [] => (w, [])
  | d :: ds' =>
      let '(w1, l1) := run_one d w in
      let '(w2, l2) := run_deferred ds' w1 in
      (w2, l1 ++ l2)
  end.

(** One request served: the body, then the deferred calls; the world it
    leaves and every external call in order. *)
Definition serve (h : Handler unit) (r : Request) (w : World) : World * list Event :=
  let '(_, st, l) := h {| world := w; req := r; deferred := [] |} in
  let '(w', l') := run_deferred (deferred st) (world st) in
  (w', l ++ l').

Definition responses (l : list Event) : list (Z * Payload) :=
  omap (fun e => match e with ERespond code p => Some (code, p) | _ => None end) l.

(** ** The CDN revision ([handler_upload_video.go]) *)

Module Cdn.
Section handler.
Context (cfg : apiConfig) (env : Env).

Definition handlerUploadVideo : Handler unit :=
  r ← getReq;
  let videoIDString := PathValue r "videoID" in
  videoID ← orRespond (uuid_Parse env videoIDString)
              StatusBadRequest "Invalid ID";
  token ← orRespond (auth_GetBearerToken env (ReqHeader r))
              StatusUnauthorized "Couldn't find JWT";
  userID ← orRespond (auth_ValidateJWT env token (jwtSecret cfg))
              StatusUnauthorized "Couldn't validate JWT";
  res ← db_GetVideo videoID;
  video ← orRespond res StatusBadRequest "No video corresponding to videoID";
  (if decide (UserID video ≠ userID)
   then respondWithError StatusUnauthorized "User is not the owner of the video" None;;
        hreturn
   else hret tt);;
  let uploadLimit := Z.shiftl 1 30 in
  _ ← r_ParseMultipartForm uploadLimit;
  res ← r_FormFile "video";
  header ← orRespond res StatusBadRequest "Unable to parse form file";
  defer (DClose "video");;
  defer DRemoveAll;;
  mediaType ← orRespond (mime_ParseMediaType env (Header_Get (Header header) "Content-Type"))
                StatusBadRequest "Invalid Content-Type";
  (if decide (mediaType ≠ "video/mp4")
   then respondWithError StatusBadRequest "Invalid file type" None;; hreturn
   else hret tt);;
  res ← os_CreateTemp_call env EmptyString "tubely-upload.mp4";
  tmpFile ← orRespond res StatusInternalServerError "Error when creating temp file";
  err ← io_Copy_call env tmpFile (content header);
  orRespondErr err StatusInternalServerError "Error when writing temp video file";;
  Seek_start tmpFile;;
  res ← getVideoAspectRatio_call env tmpFile;
  ratio ← orRespond res StatusInternalServerError "Error when fetching video ratio";
  defer (DRemove tmpFile);;
  defer (DClose tmpFile);;
  let ratio := orientation ratio in
  res ← processVideoForFastStart_call env tmpFile;
  processed ← orRespond res StatusInternalServerError
                "Error when converting video for streaming";
  defer (DRemove processed);;
  res ← os_Open processed;
  processedFile ← orRespond res StatusInternalServerError
                    "Error when converting video for streaming";
  defer (DClose processed);;
  let key := ratio +:+ "/" +:+ getAssetPath env mediaType in
  err ← s3_PutObject_call env (s3Bucket cfg) key processedFile mediaType;
  orRespondErr err StatusInternalServerError "Error when sending file to s3";;
  let videoURL := "https://" +:+ s3CfDistribution cfg +:+ "/" +:+ key in
  let video := set_VideoURL video videoURL in
  err ← db_UpdateVideo_call env video;
  orRespondErr err StatusInternalServerError "Error when updating video";;
  respondWithJSON 200 video.

End handler.
End Cdn.

(** ** The signed-URL revision *)

Module Signed.
Section handler.
Context (cfg : apiConfig) (env : Env).

(** [PresignGetObject] with [WithPresignExpires(expireTime)]: the URL of the
    signed request, or the error. *)
Definition generatePresignedURL (bucket key : string) (expireTime : Z)
    : Handler (result string) :=
  emit (EPresign bucket key expireTime);;
  hret (s3_PresignGetObject env bucket key expireTime).

(** [*video.VideoURL] panics on a nil reference. *)
Definition dbVideoToSignedVideo (video : Video) : Handler (Video * option error) :=
  match VideoURL video with
  | None => hpanic
  | Some url =>
      let splitted := strings_Split url "," in
      if decide (length splitted < 2)%nat then hret (video, None)
      else
        res ← generatePresignedURL (nth 0 splitted EmptyString) (nth 1 splitted EmptyString)
                (time_Second * 5);
        match res with
        | Err err => hret (video, Some err)
        | Ok presignedUrl => hret (set_VideoURL video presignedUrl, None)
        end
  end.

Definition handlerUploadVideo : Handler unit :=
  r ← getReq;
  let videoIDString := PathValue r "videoID" in
  videoID ← orRespond (uuid_Parse env videoIDString)
              StatusBadRequest "Invalid ID";
  token ← orRespond (auth_GetBearerToken env (ReqHeader r))
              StatusUnauthorized "Couldn't find JWT";
  userID ← orRespond (auth_ValidateJWT env token (jwtSecret cfg))
              StatusUnauthorized "Couldn't validate JWT";
  res ← db_GetVideo videoID;
  video ← orRespond res StatusBadRequest "No video corresponding to videoID";
  (if decide (UserID video ≠ userID)
   then respondWithError StatusUnauthorized "User is not the owner of the video" None;;
        hreturn
   else hret tt);;
  let uploadLimit := Z.shiftl 1 30 in
  _ ← r_ParseMultipartForm uploadLimit;
  res ← r_FormFile "video";
  header ← orRespond res StatusBadRequest "Unable to parse form file";
  defer (DClose "video");;
  defer DRemoveAll;;
  mediaType ← orRespond (mime_ParseMediaType env (Header_Get (Header header) "Content-Type"))
                StatusBadRequest "Invalid Content-Type";
  (if decide (mediaType ≠ "video/mp4")
   then respondWithError StatusBadRequest "Invalid file type" None;; hreturn
   else hret tt);;
  res ← os_CreateTemp_call env EmptyString "tubely-upload.mp4";
  tmpFile ← orRespond res StatusInternalServerError "Error when creating temp file";
  err ← io_Copy_call env tmpFile (content header);
  orRespondErr err StatusInternalServerError "Error when writing temp video file";;
  Seek_start tmpFile;;
  res ← getVideoAspectRatio_call env tmpFile;
  ratio ← orRespond res StatusInternalServerError "Error when fetching video ratio";
  defer (DRemove tmpFile);;
  defer (DClose tmpFile);;
  let ratio := orientation ratio in
  res ← processVideoForFastStart_call env tmpFile;
  processed ← orRespond res StatusInternalServerError
                "Error when converting video for streaming";
  defer (DRemove processed);;
  res ← os_Open processed;
  processedFile ← orRespond res StatusInternalServerError
                    "Error when converting video for streaming";
  defer (DClose processed);;
  let key := ratio +:+ "/" +:+ getAssetPath env (mediaTypeToExt env mediaType) in
  err ← s3_PutObject_call env (s3Bucket cfg) key processedFile mediaType;
  orRespondErr err StatusInternalServerError "Error when sending file to s3";;
  let videoURL := s3Bucket cfg +:+ "," +:+ key in
  let video := set_VideoURL video videoURL in
  err ← db_UpdateVideo_call env video;
  orRespondErr err StatusInternalServerError "Error when updating video";;
  '(video, err) ← dbVideoToSignedVideo video;
  orRespondErr err StatusInternalServerError "Error when updating video";;
  respondWithJSON 200 video.

End handler.
End Signed.

(** ** The direct revision: random key, static S3 URL *)

Module Direct.
Section handler.
Context (cfg : apiConfig) (env : Env).

(** [Body: tmpFile]: the upload reads the staged file from its start. *)
Definition read_file (path : string) : Handler (list byte) :=
  w ← getWorld;
  hret (default [] (fs w !! path)).

Definition handlerUploadVideo : Handler unit :=
  r ← getReq;
  let videoIDString := PathValue r "videoID" in
  videoID ← orRespond (uuid_Parse env videoIDString)
              StatusBadRequest "Invalid ID";
  token ← orRespond (auth_GetBearerToken env (ReqHeader r))
              StatusUnauthorized "Couldn't find JWT";
  userID ← orRespond (auth_ValidateJWT env token (jwtSecret cfg))
              StatusUnauthorized "Couldn't validate JWT";
  res ← db_GetVideo videoID;
  video ← orRespond res StatusBadRequest "No video corresponding to videoID";
  (if decide (UserID video ≠ userID)
   then respondWithError StatusUnauthorized "User is not the owner of the video" None;;
        hreturn
   else hret tt);;
  let uploadLimit := Z.shiftl 1 30 in
  _ ← r_ParseMultipartForm uploadLimit;
  res ← r_FormFile "video";
  header ← orRespond res StatusBadRequest "Unable to parse form file";
  defer (DClose "video");;
  defer DRemoveAll;;
  mediaType ← orRespond (mime_ParseMediaType env (Header_Get (Header header) "Content-Type"))
                StatusBadRequest "Invalid Content-Type";
  (if decide (mediaType ≠ "video/mp4")
   then respondWithError StatusBadRequest "Invalid file type" None;; hreturn
   else hret tt);;
  res ← os_CreateTemp_call env EmptyString "tubely-upload.mp4";
  tmpFile ← orRespond res StatusInternalServerError "Error when creating temp file";
  defer (DRemove tmpFile);;
  defer (DClose tmpFile);;
  err ← io_Copy_call env tmpFile (content header);
  orRespondErr err StatusInternalServerError "Error when writing temp video file";;
  Seek_start tmpFile;;
  res ← getVideoAspectRatio_call env tmpFile;
  ratio ← orRespond res StatusInternalServerError "Error when fetching video ratio";
  let ratio := orientation ratio in
  let randName := rand_Read env 32 in
  let rawUrlEncoding := EncodeToString randName in
  let key := ratio +:+ "/" +:+ rawUrlEncoding +:+ ".mp4" in
  body ← read_file tmpFile;
  err ← s3_PutObject_call env (s3Bucket cfg) key body mediaType;
  orRespondErr err StatusInternalServerError "Error when sending file to s3";;
  let videoURL := "https://" +:+ s3Bucket cfg +:+ ".s3." +:+ s3Region cfg
                  +:+ ".amazonaws.com/" +:+ key in
  let video := set_VideoURL video videoURL in
  err ← db_UpdateVideo_call env video;
  orRespondErr err StatusInternalServerError "Error when updating thumbnail";;
  respondWithJSON 200 video.

End handler.
End Direct.

(** ** A concrete deployment, used to run the handlers on examples *)

Module Fixture.

Definition cfg : apiConfig :=
  {| jwtSecret := "secret"; s3Bucket := "tubely"; s3Region := "eu-west-3";
     s3CfDistribution := "d111.cloudfront.net" |}.

Definition alice_video : Video :=
  {| ID := "vid-1"; UserID := "alice"; VideoURL := None; ThumbnailURL := None |}.

Definition world0 : World :=
  {| fs := ∅; s3 := ∅; db := {[ "vid-1" := alice_video ]} |}.

Definition stream (codec dar : string) : StreamInfo :=
  {| CodecType := codec; DisplayAspectRatio := dar |}.

(** Every external call succeeds: the bearer token is the user's name, the
    probe reports [streams], the remux leaves one byte, the random source
    delivers [entropy]. *)
Definition env_ok (streams : list StreamInfo) (entropy : list byte) : Env :=
  {| uuid_Parse := fun s => Ok s;
     auth_GetBearerToken := fun h =>
       match h !! "Authorization" with
       | Some (v :: _) => Ok v
       | _ => Err "malformed authorization header"
       end;
     auth_ValidateJWT := fun token _ => Ok token;
     mime_parse := fun v => Ok v;
     os_CreateTemp := fun _ pattern => Ok ("/tmp/" +:+ pattern +:+ "42");
     io_Copy := fun src => (src, None);
     ffprobe := fun _ => Ok [];
     json_Unmarshal := fun _ => Ok {| Streams := streams |};
     ffmpeg := fun _ => (None, Some [x01]);
     s3_PutObject := fun _ _ => None;
     db_UpdateVideo := fun _ => None;
     s3_PresignGetObject := fun bucket key _ =>
       Ok ("https://" +:+ bucket +:+ ".s3.amazonaws.com/" +:+ key +:+ "?X-Amz-Signature=0");
     rand_source := entropy;
     getAssetPath := fun _ => "asset.mp4";
     mediaTypeToExt := fun _ => "mp4" |}.

(** The same deployment with a copy that stops with an error, and with a
    probe that exits with an error. *)
Definition env_copy_fails : Env :=
  let e := env_ok [stream "video" "16:9"] [] in
  {| uuid_Parse := uuid_Parse e; auth_GetBearerToken := auth_GetBearerToken e;
     auth_ValidateJWT := auth_ValidateJWT e; mime_parse := mime_parse e;
     os_CreateTemp := os_CreateTemp e;
     io_Copy := fun src => (take 1 src, Some "unexpected EOF");
     ffprobe := ffprobe e; json_Unmarshal := json_Unmarshal e; ffmpeg := ffmpeg e;
     s3_PutObject := s3_PutObject e; db_UpdateVideo := db_UpdateVideo e;
     s3_PresignGetObject := s3_PresignGetObject e; rand_source := rand_source e;
     getAssetPath := getAssetPath e; mediaTypeToExt := mediaTypeToExt e |}.

Definition env_probe_fails : Env :=
  let e := env_ok [stream "video" "16:9"] [] in
  {| uuid_Parse := uuid_Parse e; auth_GetBearerToken := auth_GetBearerToken e;
     auth_ValidateJWT := auth_ValidateJWT e; mime_parse := mime_parse e;
     os_CreateTemp := os_CreateTemp e; io_Copy := io_Copy e;
     ffprobe := fun _ => Err "exit status 1";
     json_Unmarshal := json_Unmarshal e; ffmpeg := ffmpeg e;
     s3_PutObject := s3_PutObject e; db_UpdateVideo := db_UpdateVideo e;
     s3_PresignGetObject := s3_PresignGetObject e; rand_source := rand_source e;
     getAssetPath := getAssetPath e; mediaTypeToExt := mediaTypeToExt e |}.

Definition upload (contentType : list string) : FileHeader :=
  {| Filename := "clip.mp4";
     Header := {[ "Content-Type" := contentType ]};
     content := [x00; x00; x00; x18] |}.

(** A request of [user] for video [vid-1] whose body parses to [form]. *)
Definition request (user : string) (form : result Form) : Request :=
  {| PathValue := fun name => if decide (name = "videoID") then "vid-1" else EmptyString;
     ReqHeader := {[ "Authorization" := [user] ]};
     MultipartForm := None;
     ReadForm := form |}.

Definition video_form (contentType : list string) : result Form :=
  Ok {| File := {[ "video" := [upload contentType] ]} |}.

End Fixture.

(** ** Classification: the code's rule and the rule in the specification's words *)

(** What the handlers do with a parsed probe result: [getVideoAspectRatio]'s
    loop, then the renaming of the ratio. *)
Definition classification (meta : VideoMeta) : string :=
  orientation (scanStreams (Streams meta)).

(** The specification's wording: the first stream whose type is "video", and
    its display aspect ratio compared with the two known strings. *)
Definition spec_classification (meta : VideoMeta) : string :=
  match List.find (fun s => bool_decide (CodecType s = "video")) (Streams meta) with
  | Some s =>
      if decide (DisplayAspectRatio s = "16:9") then "landscape"
      else if decide (DisplayAspectRatio s = "9:16") then "portrait"
      else "other"
  | None => "other"
  end.

(** A video stream whose display aspect ratio is one of the two known strings. *)
Definition recognised (s : StreamInfo) : bool :=
  bool_decide (CodecType s = "video")
  && (bool_decide (DisplayAspectRatio s = "16:9")
      || bool_decide (DisplayAspectRatio s = "9:16")).

Definition two_video_streams : VideoMeta :=
  {| Streams := [ {| CodecType := "video"; DisplayAspectRatio := "4:3" |};
                  {| CodecType := "video"; DisplayAspectRatio := "16:9" |} ] |}.

(** ** Requests that pass the ownership check *)

(** The path value parses to an identifier, the bearer token is present and
    valid, and the record under that identifier belongs to the token's user. *)
Definition owner_request (cfg : apiConfig) (env : Env) (r : Request) (w : World) : Prop :=
  exists videoID token video,
    uuid_Parse env (PathValue r "videoID") = Ok videoID
    /\ auth_GetBearerToken env (ReqHeader r) = Ok token
    /\ auth_ValidateJWT env token (jwtSecret cfg) = Ok (UserID video)
    /\ db w !! videoID = Some video.

(** The static URL the direct revision persists for a key. *)
Definition static_url (cfg : apiConfig) (key : string) : string :=
  "https://" +:+ s3Bucket cfg +:+ ".s3." +:+ s3Region cfg +:+ ".amazonaws.com/" +:+ key.

(** The inverse of [encode_char], by search over the 64 sextets. *)
Definition decode_char (c : ascii) : option sextet :=
  find (fun s => bool_decide (encode_char s = c))
    (b5 ← [false; true]; b4 ← [false; true]; b3 ← [false; true];
     b2 ← [false; true]; b1 ← [false; true]; b0 ← [false; true];
     [(b5, b4, b3, b2, b1, b0)]).

(** The three orientation names. *)
Definition orientations : list string := ["landscape"; "portrait"; "other"].

(** ** Thumbnail upload

    Two revisions of [handlerUploadThumbnail]: the one of
    [handler_upload_thumbnail.go] persists the image itself as a base64
    [data:] URL; the other one (the unnamed source file [part_000], with the
    imports [mime] and [os]) writes the image to the assets directory and
    persists its URL. *)

Definition set_ThumbnailURL (video : Video) (url : string) : Video :=
  {| ID := ID video; UserID := UserID video;
     VideoURL := VideoURL video; ThumbnailURL := Some url |}.

(** [base64.StdEncoding]: the standard alphabet, output padded with "=" to a
    multiple of four characters. *)
Definition encodeStd : string :=
  "ABCDEFGHIJKLMNOPQRSTUVWXYZabcdefghijklmnopqrstuvwxyz0123456789+/".

Definition std_char (s : sextet) : ascii :=
  default "="%char (String.get (sextet_index s) encodeStd).

Fixpoint StdEncodeToString (src : list byte) : string :=
  match src with
  | [] => EmptyString
  | [a] =>
      let '(s1, s2, _, _) := group3 a x00 x00 in
      String (std_char s1) (String (std_char s2) "==")
  | [a; b] =>
      let '(s1, s2, s3, _) := group3 a b x00 in
      String (std_char s1) (String (std_char s2) (String (std_char s3) "="))
  | a :: b :: c :: rest =>
      let '(s1, s2, s3, s4) := group3 a b c in
      String (std_char s1) (String (std_char s2)
        (String (std_char s3) (String (std_char s4) (StdEncodeToString rest))))
  end.

Module Thumbnail.

(** What the thumbnail handlers ask of the outside world beyond [Env]:
    whether reading the uploaded file and creating the asset file fail, and
    the helpers [getAssetPath], [cfg.getAssetDiskPath] and [cfg.getAssetURL]
    of the repository, which are not among the sources and are taken as
    given. *)
Record AssetEnv := {
  io_ReadAll : list byte -> option error;
  os_Create : string -> option error;
  getAssetPath : UUID -> string -> string;
  getAssetDiskPath : string -> string;
  getAssetURL : string -> string
}.

(** [os.Create]: the file exists and is empty afterwards (an existing file is
    truncated). *)
Definition os_Create_call (aenv : AssetEnv) (path : string) : Handler (option error) :=
  w ← getWorld;
  match os_Create aenv path with
  | Some err => hret (Some err)
  | None => setWorld (set_fs (insert path []) w);; hret None
  end.

(** [io.ReadAll]: all the bytes of the file, or the error that stopped the
    read. *)
Definition io_ReadAll_call (aenv : AssetEnv) (file : list byte)
    : Handler (result (list byte)) :=
  match io_ReadAll aenv file with
  | Some err => hret (Err err)
  | None => hret (Ok file)
  end.

Section handler.
Context (cfg : apiConfig) (env : Env) (aenv : AssetEnv).

(** The disk revision (unnamed source file [part_000]). *)
Definition handlerUploadThumbnail_disk : Handler unit :=
  r ← getReq;
  let videoIDString := PathValue r "videoID" in
  videoID ← orRespond (uuid_Parse env videoIDString)
              StatusBadRequest "Invalid ID";
  token ← orRespond (auth_GetBearerToken env (ReqHeader r))
              StatusUnauthorized "Couldn't find JWT";
  userID ← orRespond (auth_ValidateJWT env token (jwtSecret cfg))
              StatusUnauthorized "Couldn't validate JWT";
  let maxMemory := Z.shiftl 10 20 in
  _ ← r_ParseMultipartForm maxMemory;
  res ← r_FormFile "thumbnail";
  header ← orRespond res StatusBadRequest "Unable to parse form file";
  defer (DClose "thumbnail");;
  defer DRemoveAll;;
  mediaType ← orRespond (mime_ParseMediaType env (Header_Get (Header header) "Content-Type"))
                StatusBadRequest "Invalid Content-Type";
  (if decide (mediaType ≠ "image/jpg" ∧ mediaType ≠ "image/png")
   then respondWithError StatusBadRequest "Invalid file type" None;; hreturn
   else hret tt);;
  res ← db_GetVideo videoID;
  video ← orRespond res StatusBadRequest "No video corresponding to videoID";
  (if decide (UserID video ≠ userID)
   then respondWithError StatusUnauthorized "User is not the owner of the video" None;;
        hreturn
   else hret tt);;
  let assetPath := getAssetPath aenv videoID mediaType in
  let assetDiskPath := getAssetDiskPath aenv assetPath in
  err ← os_Create_call aenv assetDiskPath;
  orRespondErr err StatusInternalServerError "Error when storing thumbnail";;
  defer (DClose assetDiskPath);;
  err ← io_Copy_call env assetDiskPath (content header);
  orRespondErr err StatusInternalServerError "Error when storing thumbnail";;
  let url := getAssetURL aenv assetPath in
  let video := set_ThumbnailURL video url in
  err ← db_UpdateVideo_call env video;
  orRespondErr err StatusInternalServerError "Error when updating thumbnail";;
  respondWithJSON 200 video.

(** [handler_upload_thumbnail.go]: the image is persisted as a [data:] URL. *)
Definition handlerUploadThumbnail : Handler unit :=
  r ← getReq;
  let videoIDString := PathValue r "videoID" in
  videoID ← orRespond (uuid_Parse env videoIDString)
              StatusBadRequest "Invalid ID";
  token ← orRespond (auth_GetBearerToken env (ReqHeader r))
              StatusUnauthorized "Couldn't find JWT";
  userID ← orRespond (auth_ValidateJWT env token (jwtSecret cfg))
              StatusUnauthorized "Couldn't validate JWT";
  let maxMemory := Z.shiftl 10 20 in
  _ ← r_ParseMultipartForm maxMemory;
  res ← r_FormFile "thumbnail";
  header ← orRespond res StatusBadRequest "Unable to parse form file";
  defer (DClose "thumbnail");;
  defer DRemoveAll;;
  let mediaType := Header_Get (Header header) "Content-Type" in
  res ← io_ReadAll_call aenv (content header);
  thumbnailData ← orRespond res StatusBadRequest "Unable to parse form file";
  res ← db_GetVideo videoID;
  video ← orRespond res StatusBadRequest "No video corresponding to videoID";
  (if decide (UserID video ≠ userID)
   then respondWithError StatusUnauthorized "User is not the owner of the video" None;;
        hreturn
   else hret tt);;
  let encoded := StdEncodeToString thumbnailData in
  let newUrl := "data:" +:+ mediaType +:+ ";base64," +:+ encoded in
  let video := set_ThumbnailURL video newUrl in
  err ← db_UpdateVideo_call env video;
  orRespondErr err StatusInternalServerError "Error when updating thumbnail";;
  respondWithJSON 200 video.

End handler.
End Thumbnail.

(** ** Calls made when the handler is done *)

Definition is_cleanup (e : Event) : bool :=
  match e with
  | EClose _ | ERemove _ | ERemoveAll => true
  | _ => false
  end.

Definition is_response (e : Event) : bool :=
  match e with
  | ERespond _ _ => true
  | _ => false
  end.

(** The URL the CDN revision persists for a key. *)
Definition cdn_url (cfg : apiConfig) (key : string) : string :=
  "https://" +:+ s3CfDistribution cfg +:+ "/" +:+ key.

(** ** Further deployments for examples *)

Module Scenario.

(** [Fixture.env_ok] with another answer of the remux, of the metadata update
    and of the signing. *)
Definition env_with (remux : option error * option (list byte))
    (update : option error) (presign : result string) : Env :=
  let e := Fixture.env_ok [Fixture.stream "video" "16:9"] [] in
  {| uuid_Parse := uuid_Parse e; auth_GetBearerToken := auth_GetBearerToken e;
     auth_ValidateJWT := auth_ValidateJWT e; mime_parse := mime_parse e;
     os_CreateTemp := os_CreateTemp e; io_Copy := io_Copy e;
     ffprobe := ffprobe e; json_Unmarshal := json_Unmarshal e;
     ffmpeg := fun _ => remux;
     s3_PutObject := s3_PutObject e;
     db_UpdateVideo := fun _ => update;
     s3_PresignGetObject := fun _ _ _ => presign;
     rand_source := rand_source e;
     getAssetPath := getAssetPath e; mediaTypeToExt := mediaTypeToExt e |}.

Definition env_remux_empty : Env :=
  env_with (None, Some []) None (Ok "https://signed.example/x").

Definition env_update_fails : Env :=
  env_with (None, Some [x01]) (Some "database is locked") (Ok "https://signed.example/x").

Definition env_presign_fails : Env :=
  env_with (None, Some [x01]) None (Err "failed to sign request").

Definition aenv_ok : Thumbnail.AssetEnv :=
  {| Thumbnail.io_ReadAll := fun _ => None;
     Thumbnail.os_Create := fun _ => None;
     Thumbnail.getAssetPath := fun videoID _ => videoID +:+ ".png";
     Thumbnail.getAssetDiskPath := fun p => "assets/" +:+ p;
     Thumbnail.getAssetURL := fun p => "http://localhost:8091/assets/" +:+ p |}.

Definition thumbnail (header : MIMEHeader) : FileHeader :=
  {| Filename := "thumb.png"; Header := header; content := [x89; x50; x4e; x47] |}.

Definition thumbnail_form (header : MIMEHeader) : result Form :=
  Ok {| File := {[ "thumbnail" := [thumbnail header] ]} |}.

Definition typed (contentType : string) : MIMEHeader :=
  {[ "Content-Type" := [contentType] ]}.

(** A disk that already holds a thumbnail of video [vid-1]. *)
Definition world_thumbnail : World :=
  {| fs := {[ "assets/vid-1.png" := [x01; x02; x03] ]};
     s3 := ∅;
     db := {[ "vid-1" := Fixture.alice_video ]} |}.

(** Upper-case ASCII letters in lower case, other characters unchanged. *)
Definition ToLower_char (c : ascii) : ascii :=
  let n := Stdlib.Strings.Ascii.N_of_ascii c in
  if ((65 <=? n) && (n <=? 90))%N
  then Stdlib.Strings.Ascii.ascii_of_N (n + 32)
  else c.

Fixpoint ToLower (s : string) : string :=
  match s with
  | EmptyString => EmptyString
  | String c s' => String (ToLower_char c) (ToLower s')
  end.

(** The part of [s] before the first [sep]. *)
Fixpoint before (sep : ascii) (s : string) : string :=
  match s with
  | EmptyString => EmptyString
  | String c s' => if decide (c = sep) then EmptyString else String c (before sep s')
  end.

(** What [mime.ParseMediaType] gives for a header value with a well-formed
    type, no blank around it, and well-formed parameters: the part before the
    first ";", in lower case. *)
Definition go_media_type (v : string) : result string :=
  Ok (ToLower (before ";" v)).

(** [Fixture.env_ok] with that answer of [mime.ParseMediaType]. *)
Definition env_go_mime : Env :=
  let e := Fixture.env_ok [Fixture.stream "video" "16:9"] [] in
  {| uuid_Parse := uuid_Parse e; auth_GetBearerToken := auth_GetBearerToken e;
     auth_ValidateJWT := auth_ValidateJWT e;
     mime_parse := go_media_type;
     os_CreateTemp := os_CreateTemp e; io_Copy := io_Copy e;
     ffprobe := ffprobe e; json_Unmarshal := json_Unmarshal e; ffmpeg := ffmpeg e;
     s3_PutObject := s3_PutObject e; db_UpdateVideo := db_UpdateVideo e;
     s3_PresignGetObject := s3_PresignGetObject e; rand_source := rand_source e;
     getAssetPath := getAssetPath e; mediaTypeToExt := mediaTypeToExt e |}.



End Scenario.

(** A trace with one response: calls that are neither responses nor cleanup,
    then the response, then cleanup only. *)
Definition one_response_then_cleanup (l : list Event) : Prop :=
  exists body code payload cleanup,
    l = body ++ ERespond code payload :: cleanup
    /\ forallb (fun e => negb (is_response e) && negb (is_cleanup e)) body = true
    /\ forallb is_cleanup cleanup = true.

(** * Properties *)

(** ** Base64 *)

Lemma decode_encode_char (s : sextet) : decode_char (encode_char s) = Some s.
Proof.
  destruct s as [[[[[b5 b4] b3] b2] b1] b0].
  destruct b5, b4, b3, b2, b1, b0; vm_compute; reflexivity.
Qed.

Lemma encode_char_inj (s t : sextet) : encode_char s = encode_char t -> s = t.
Proof.
  intros H. apply (f_equal decode_char) in H.
  rewrite !decode_encode_char in H. congruence.
Qed.


Lemma to_bits_inj (a b : byte) : Byte.to_bits a = Byte.to_bits b -> a = b.
Proof.
  intros H. rewrite <- (Byte.of_bits_to_bits a), <- (Byte.of_bits_to_bits b).
  now rewrite H.
Qed.

Lemma group3_inj a b c a' b' c' :
  group3 a b c = group3 a' b' c' -> a = a' /\ b = b' /\ c = c'.
Proof.
  unfold group3. intros H.
  repeat split; apply to_bits_inj.
  all: destruct (Byte.to_bits a) as (? & ? & ? & ? & ? & ? & ? & ?).
  all: destruct (Byte.to_bits b) as (? & ? & ? & ? & ? & ? & ? & ?).
  all: destruct (Byte.to_bits c) as (? & ? & ? & ? & ? & ? & ? & ?).
  all: destruct (Byte.to_bits a') as (? & ? & ? & ? & ? & ? & ? & ?).
  all: destruct (Byte.to_bits b') as (? & ? & ? & ? & ? & ? & ? & ?).
  all: destruct (Byte.to_bits c') as (? & ? & ? & ? & ? & ? & ? & ?).
  all: congruence.
Qed.

Lemma list_ind3 {A} (P : list A -> Prop) :
  P [] -> (forall a, P [a]) -> (forall a b, P [a; b]) ->
  (forall a b c l, P l -> P (a :: b :: c :: l)) ->
  forall l, P l.
Proof.
  intros H0 H1 H2 H3 l.
  cut (P l /\ (forall a, P (a :: l)) /\ (forall a b, P (a :: b :: l))); [tauto|].
  induction l as [|x l (IH0 & IH1 & IH2)]; auto.
Qed.

Ltac open_groups H :=
  unfold group3 in H;
  repeat match type of H with
  | context [Byte.to_bits ?x] =>
      is_var x;
      let E := fresh "E" in
      destruct (Byte.to_bits x) as (? & ? & ? & ? & ? & ? & ? & ?) eqn:E
  end;
  cbv beta iota zeta delta [Byte.to_bits] in H.

Ltac same_chars H :=
  injection H as H;
  repeat match goal with
  | K : encode_char _ = encode_char _ |- _ => apply encode_char_inj in K
  end.

Lemma EncodeToString_inj (l1 l2 : list byte) :
  EncodeToString l1 = EncodeToString l2 -> l1 = l2.
Proof.
  revert l2. induction l1 as [|a|a b|a b c l1 IH] using list_ind3;
    intros [|a' [|b' [|c' l2]]] H; try reflexivity.
  all: cbn [EncodeToString] in H.
  all: open_groups H; try discriminate H.
  - same_chars H. f_equal. apply to_bits_inj. congruence.
  - same_chars H. f_equal; [|f_equal]; apply to_bits_inj; congruence.
  - same_chars H. f_equal; [|f_equal; [|f_equal]]; try (apply to_bits_inj; congruence).
    now apply IH.
Qed.




(** ** Strings *)

Lemma append_cons (c : ascii) (s t : string) : String c s +:+ t = String c (s +:+ t).
Proof. reflexivity. Qed.

Lemma append_nil (t : string) : EmptyString +:+ t = t.
Proof. reflexivity. Qed.

Lemma length_append (s t : string) :
  String.length (s +:+ t) = (String.length s + String.length t)%nat.
Proof. induction s as [|c s IH]; [reflexivity|]. rewrite append_cons. cbn. now rewrite IH. Qed.

Lemma append_inj_r (a b t : string) : a +:+ t = b +:+ t -> a = b.
Proof.
  revert b. induction a as [|c a IH]; intros [|d b] H.
  - reflexivity.
  - apply (f_equal String.length) in H.
    rewrite append_nil, append_cons in H. cbn in H. rewrite length_append in H. lia.
  - apply (f_equal String.length) in H.
    rewrite append_nil, append_cons in H. cbn in H. rewrite length_append in H. lia.
  - rewrite !append_cons in H. injection H as -> H. f_equal. now apply IH.
Qed.

Lemma scanStreams_cases (streams : list StreamInfo) :
  scanStreams streams = "16:9" \/ scanStreams streams = "9:16"
  \/ scanStreams streams = "other".
Proof.
  induction streams as [|s streams IH]; cbn [scanStreams]; [tauto|].
  destruct (decide (CodecType s ≠ "video")); [exact IH|].
  destruct (decide _) as [[->| ->]|]; tauto.
Qed.

Lemma orientation_scanStreams (streams : list StreamInfo) :
  In (orientation (scanStreams streams)) orientations.
Proof.
  destruct (scanStreams_cases streams) as [->|[->| ->]]; vm_compute; tauto.
Qed.

Lemma random_key_inj (o1 o2 : string) (d1 d2 : list byte) :
  In o1 orientations -> In o2 orientations ->
  random_key o1 d1 = random_key o2 d2 -> o1 = o2 /\ d1 = d2.
Proof.
  unfold orientations, random_key. intros H1 H2 H.
  assert (o1 = o2) as <-.
  { destruct H1 as [<-|[<-|[<-|[]]]], H2 as [<-|[<-|[<-|[]]]];
      first [reflexivity | rewrite !append_cons in H; discriminate H]. }
  split; [reflexivity|].
  apply (inj _), (inj _), append_inj_r in H.
  now apply EncodeToString_inj.
Qed.

(** ** Probe and classification *)

Lemma getVideoAspectRatio_parsed env filepath buffer meta :
  ffprobe env (ffprobe_args filepath) = Ok buffer ->
  json_Unmarshal env buffer = Ok meta ->
  fst (getVideoAspectRatio env filepath) = Ok (scanStreams (Streams meta)).
Proof. intros H1 H2. unfold getVideoAspectRatio. now rewrite H1, H2. Qed.

(** C2, as stated, fails: with a first video stream of ratio "4:3" and a
    second of ratio "16:9" the code classifies the file as landscape, where
    the first video stream alone gives other. *)
Lemma C2_counterexample :
  classification two_video_streams = "landscape"
  /\ spec_classification two_video_streams = "other"
  /\ classification two_video_streams <> spec_classification two_video_streams.
Proof. vm_compute. repeat split; discriminate. Qed.

(** C2, amended: the classification is decided by the first stream that is of
    type "video" and whose display aspect ratio is exactly "16:9" or "9:16":
    landscape for "16:9", portrait for "9:16"; it is other when no stream is
    of that kind (so for every other ratio string, such as "1.78", and when
    there is no video stream). *)
Theorem C2_classification_first_recognised (meta : VideoMeta) :
  classification meta =
    match List.find recognised (Streams meta) with
    | Some s => if decide (DisplayAspectRatio s = "16:9") then "landscape" else "portrait"
    | None => "other"
    end.
Proof.
  unfold classification. destruct meta as [streams]. cbn [Streams].
  induction streams as [|s streams IH]; [reflexivity|].
  cbn [scanStreams List.find]. unfold recognised at 1.
  destruct (decide (CodecType s ≠ "video")) as [Hc|Hc].
  - rewrite (bool_decide_eq_false_2 _ Hc). exact IH.
  - apply dec_stable in Hc. rewrite (bool_decide_eq_true_2 _ Hc). cbn [andb].
    destruct (decide (DisplayAspectRatio s = "16:9" ∨ DisplayAspectRatio s = "9:16"))
      as [[H|H]|H].
    + rewrite (bool_decide_eq_true_2 _ H). cbn [orb].
      rewrite H. reflexivity.
    + rewrite (bool_decide_eq_true_2 _ H), orb_true_r.
      rewrite H. reflexivity.
    + rewrite !bool_decide_eq_false_2 by tauto. exact IH.
Qed.

(** ** Remux *)

(** C3: [processVideoForFastStart] succeeds exactly when [ffmpeg] exits without
    an error and the output path afterwards holds a file of non-zero size; a
    success returns the input path followed by ".processing". *)
Theorem C3_processVideoForFastStart_iff (env : Env) (filepath : string) (w : World) :
  let output := filepath +:+ ".processing" in
  let out := processVideoForFastStart env filepath w in
  out.1.2 = after_ffmpeg env filepath w
  /\ (is_ok out.1.1 = true <->
      fst (ffmpeg env (ffmpeg_args filepath output)) = None
      /\ exists c, fs (after_ffmpeg env filepath w) !! output = Some c /\ length c <> 0%nat)
  /\ (forall path, out.1.1 = Ok path -> path = output).
Proof.
  cbv zeta. unfold processVideoForFastStart, os_Stat.
  destruct (fst (ffmpeg env _)) as [err|] eqn:Hrun; cbn.
  { repeat split; try discriminate. intros [? _]. discriminate. }
  destruct (fs (after_ffmpeg env filepath w) !! _) as [c|] eqn:Hout; cbn.
  - destruct (decide (Z.of_nat (length c) = 0)) as [Hz|Hz]; cbn.
    + repeat split; try discriminate.
      intros [_ (c' & [= <-] & Hc)]. lia.
    + repeat split; try congruence.
      exists c. split; [reflexivity|lia].
  - repeat split; try discriminate.
    intros [_ (c' & ? & _)]. discriminate.
Qed.

(** ** Signed-URL resolution *)

Lemma strings_Split_no_sep (s : string) (sep : ascii) :
  contains s sep = false -> strings_Split s sep = [s].
Proof.
  induction s as [|c s IH]; [reflexivity|].
  cbn [contains strings_Split]. intros [Hc Hs]%orb_false_iff.
  apply bool_decide_eq_false in Hc.
  destruct (decide (c = sep)); [contradiction|].
  now rewrite (IH Hs).
Qed.

(** C9: on a record whose video URL holds no comma, [dbVideoToSignedVideo]
    returns the record as it is and no error, and asks for no signed URL. *)
Theorem C9_dbVideoToSignedVideo_static_url
    (env : Env) (video : Video) (url : string) (st : HState) :
  VideoURL video = Some url ->
  contains url "," = false ->
  Signed.dbVideoToSignedVideo env video st = (Next (video, None), st, []).
Proof.
  intros Hurl Hcomma. unfold Signed.dbVideoToSignedVideo.
  rewrite Hurl, (strings_Split_no_sep _ _ Hcomma). reflexivity.
Qed.

Lemma C9_witness :
  let url := "https://d111.cloudfront.net/landscape/asset.mp4" in
  let video := set_VideoURL Fixture.alice_video url in
  let st := {| world := Fixture.world0;
               req := Fixture.request "alice" (Fixture.video_form ["video/mp4"]);
               deferred := [] |} in
  contains url "," = false
  /\ Signed.dbVideoToSignedVideo (Fixture.env_ok [] []) video st
     = (Next (video, None), st, []).
Proof.
  cbv zeta. split; [reflexivity|].
  apply (C9_dbVideoToSignedVideo_static_url (Fixture.env_ok [] [])
           (set_VideoURL Fixture.alice_video "https://d111.cloudfront.net/landscape/asset.mp4")
           "https://d111.cloudfront.net/landscape/asset.mp4");
    reflexivity.
Defined.

(** ** Running the handlers symbolically *)

(** Unfolds the handler combinators and the calls; what the environment and
    the stores answer stays folded and is decided by case analysis. *)
Ltac hsimpl :=
  cbv beta iota zeta delta
    [serve Cdn.handlerUploadVideo Signed.handlerUploadVideo Direct.handlerUploadVideo
     Signed.dbVideoToSignedVideo Signed.generatePresignedURL Direct.read_file
     mbind mret handler_bind handler_ret hbind hret hreturn hpanic emit defer
     getReq getWorld setWorld setReq respondWithError respondWithJSON
     orRespond orRespondErr db_GetVideo db_UpdateVideo_call r_ParseMultipartForm
     r_FormFile os_CreateTemp_call io_Copy_call Seek_start getVideoAspectRatio_call
     getVideoAspectRatio processVideoForFastStart_call processVideoForFastStart
     after_ffmpeg os_Stat os_Open s3_PutObject_call run_one run_deferred
     world req deferred app fst snd];
  cbn [fs s3 db set_fs set_s3 set_db VideoURL set_VideoURL].

Ltac hcase :=
  match goal with
  | |- context [match ?x with _ => _ end] =>
      lazymatch x with
      | context [match _ with _ => _ end] => fail
      | _ => first [ match goal with H : x = _ |- _ => rewrite H end
                   | destruct x eqn:? ]
      end
  end; hsimpl.

Ltac hrun H := rewrite H; hsimpl.

Lemma FormFile_after_parse (r : Request) (key : string) :
  FormFile (snd (ParseMultipartForm r)) key = FormFile r key.
Proof.
  destruct r as [pv rh [f|] [f'|e]]; reflexivity.
Qed.

(** ** Ownership *)

(** C7: when the record fetched for the request belongs to another user than
    the authenticated one, the handler answers 401 and nothing else happens:
    the filesystem, the object store and the metadata store are as before, and
    the response is the only call made (no temporary file, no upload, no
    update of the record). *)
Theorem C7_ownership_violation_no_mutation
    (cfg : apiConfig) (env : Env) (r : Request) (w : World)
    (videoID userID : UUID) (token : string) (video : Video) :
  uuid_Parse env (PathValue r "videoID") = Ok videoID ->
  auth_GetBearerToken env (ReqHeader r) = Ok token ->
  auth_ValidateJWT env token (jwtSecret cfg) = Ok userID ->
  db w !! videoID = Some video ->
  UserID video ≠ userID ->
  serve (Cdn.handlerUploadVideo cfg env) r w
  = (w, [ERespond StatusUnauthorized (PError "User is not the owner of the video")]).
Proof.
  intros H1 H2 H3 H4 H5. hsimpl.
  hrun H1. hrun H2. hrun H3. hrun H4.
  destruct (decide (UserID video ≠ userID)); [|contradiction].
  reflexivity.
Qed.

Lemma C7_witness :
  let env := Fixture.env_ok [] [] in
  let r := Fixture.request "bob" (Fixture.video_form ["video/mp4"]) in
  UserID Fixture.alice_video ≠ "bob"
  /\ serve (Cdn.handlerUploadVideo Fixture.cfg env) r Fixture.world0
     = (Fixture.world0,
        [ERespond 401 (PError "User is not the owner of the video")]).
Proof.
  cbv zeta. split; [vm_compute; discriminate|].
  apply (C7_ownership_violation_no_mutation Fixture.cfg (Fixture.env_ok [] [])
           (Fixture.request "bob" (Fixture.video_form ["video/mp4"])) Fixture.world0
           "vid-1" "bob" "bob" Fixture.alice_video);
    first [vm_compute; reflexivity | vm_compute; discriminate].
Defined.

(** ** Content type *)

Lemma mime_ParseMediaType_absent (env : Env) (h : MIMEHeader) :
  h !! "Content-Type" = None ->
  mime_ParseMediaType env (Header_Get h "Content-Type") = Err "mime: no media type".
Proof. intros H. unfold Header_Get. rewrite H. reflexivity. Qed.

Ltac in_list := cbn [In]; solve [repeat first [left; reflexivity | right]].

Ltac in_cases H :=
  cbn [In] in H;
  repeat match type of H with _ \/ _ => destruct H as [H|H] end;
  try discriminate H; try contradiction.

Ltac video_mp4 :=
  match goal with
  | H : ¬ _ ≠ "video/mp4" |- _ => rewrite (dec_stable H)
  end.

Ltac owner_absurd :=
  match goal with
  | H : owner_request _ _ _ _ |- _ =>
      destruct H as (? & ? & ? & ? & ? & ? & ?); congruence
  end.

(** C4: when the declared content type of the uploaded file is absent, does
    not parse, or parses with [mime.ParseMediaType] to a media type other
    than "video/mp4", the handler leaves the filesystem, the object store and
    the metadata store as they were and creates no temporary file; the
    response is a single error, of status 400 whenever the request had passed
    the ownership check (an earlier check answers 400 or 401). *)
Theorem C4_rejected_content_type_no_staging
    (cfg : apiConfig) (env : Env) (r : Request) (w : World) (header : FileHeader) :
  fst (FormFile r "video") = Ok header ->
  (Header header !! "Content-Type" = None
   \/ is_ok (mime_ParseMediaType env (Header_Get (Header header) "Content-Type")) = false
   \/ exists mediaType,
        mime_ParseMediaType env (Header_Get (Header header) "Content-Type") = Ok mediaType
        /\ mediaType ≠ "video/mp4") ->
  let out := serve (Cdn.handlerUploadVideo cfg env) r w in
  out.1 = w
  /\ (forall name, ~ In (ECreateTemp name) out.2)
  /\ exists code msg,
       responses out.2 = [(code, PError msg)]
       /\ (code = StatusBadRequest \/ code = StatusUnauthorized)
       /\ (owner_request cfg env r w -> code = StatusBadRequest).
Proof.
  intros Hfile Hbad. cbv zeta.
  assert (match mime_ParseMediaType env (Header_Get (Header header) "Content-Type") with
          | Ok mediaType => mediaType ≠ "video/mp4"
          | Err _ => True
          end) as Hmime.
  { destruct Hbad as [Habs|[Herr|(mt & -> & Hmt)]]; [| |exact Hmt].
    - now rewrite (mime_ParseMediaType_absent _ _ Habs).
    - destruct (mime_ParseMediaType _ _); [discriminate Herr|exact I]. }
  clear Hbad.
  pose proof (FormFile_after_parse r "video") as Hparse.
  destruct (ParseMultipartForm r) as [perr r'] eqn:HP. cbn [snd] in Hparse.
  destruct (FormFile r "video") as [res r''] eqn:HF. cbn [fst] in Hfile. subst res.
  destruct (mime_ParseMediaType _ _) as [mediaType|e] eqn:HM.
  all: hsimpl; repeat hcase.
  all: cbn [fst snd]; try contradiction.
  all: split; [reflexivity|split; [cbn [In]; intros name H; intuition discriminate|]].
  all: eexists _, _; split; [reflexivity|].
  all: split; [tauto|intros Ho].
  all: first [reflexivity | owner_absurd].
Qed.

Lemma C4_witness :
  let env := Fixture.env_ok [] [] in
  let r := Fixture.request "alice" (Fixture.video_form ["image/png"]) in
  let out := serve (Cdn.handlerUploadVideo Fixture.cfg env) r Fixture.world0 in
  fst (FormFile r "video") = Ok (Fixture.upload ["image/png"])
  /\ out.1 = Fixture.world0
  /\ (forall name, ~ In (ECreateTemp name) out.2)
  /\ exists code msg,
       responses out.2 = [(code, PError msg)]
       /\ (code = StatusBadRequest \/ code = StatusUnauthorized)
       /\ (owner_request Fixture.cfg env r Fixture.world0 -> code = StatusBadRequest).
Proof.
  cbv zeta. split; [vm_compute; reflexivity|].
  apply (C4_rejected_content_type_no_staging Fixture.cfg (Fixture.env_ok [] [])
           (Fixture.request "alice" (Fixture.video_form ["image/png"])) Fixture.world0
           (Fixture.upload ["image/png"])).
  - vm_compute; reflexivity.
  - right. right. exists "image/png". split; [vm_compute; reflexivity|discriminate].
Defined.

(** C4, as stated, fails: a declared content type "VIDEO/MP4" is not exactly
    "video/mp4", yet [mime.ParseMediaType] gives "video/mp4" for it and the
    handler stages the upload in a temporary file and answers 200; the same
    happens for "video/mp4; codecs=avc1". *)
Lemma C4_counterexample :
  let run declared :=
    serve (Cdn.handlerUploadVideo Fixture.cfg Scenario.env_go_mime)
      (Fixture.request "alice" (Fixture.video_form [declared])) Fixture.world0 in
  let v := set_VideoURL Fixture.alice_video
             "https://d111.cloudfront.net/landscape/asset.mp4" in
  Header_Get (Header (Fixture.upload ["VIDEO/MP4"])) "Content-Type" = "VIDEO/MP4"
  /\ "VIDEO/MP4" <> "video/mp4"
  /\ In (ECreateTemp "/tmp/tubely-upload.mp442") (run "VIDEO/MP4").2
  /\ responses (run "VIDEO/MP4").2 = [(200, PVideo v)]
  /\ "video/mp4; codecs=avc1" <> "video/mp4"
  /\ In (ECreateTemp "/tmp/tubely-upload.mp442") (run "video/mp4; codecs=avc1").2
  /\ responses (run "video/mp4; codecs=avc1").2 = [(200, PVideo v)].
Proof.
  vm_compute. repeat split; try discriminate; tauto.
Qed.

(** ** Multipart parsing *)




(** ** Cleanup of the staged file *)

(** C1 fails on the CDN revision: [defer os.Remove(tmpFile.Name())] is
    registered only after the copy and the probe have succeeded.  With a copy
    that stops with an error, and with a probe that exits with an error, the
    handler answers 500 and the staged file is still on disk; no removal of it
    was ever issued. *)
Theorem C1_staged_file_left_behind :
  let r := Fixture.request "alice" (Fixture.video_form ["video/mp4"]) in
  let tmp := "/tmp/tubely-upload.mp442" in
  let copy := serve (Cdn.handlerUploadVideo Fixture.cfg Fixture.env_copy_fails) r Fixture.world0 in
  let probe := serve (Cdn.handlerUploadVideo Fixture.cfg Fixture.env_probe_fails) r Fixture.world0 in
  (fs Fixture.world0 !! tmp = None
   /\ In (ECreateTemp tmp) copy.2
   /\ responses copy.2 = [(500, PError "Error when writing temp video file")]
   /\ fs copy.1 !! tmp = Some [x00]
   /\ ~ In (ERemove tmp) copy.2)
  /\ (In (ECreateTemp tmp) probe.2
      /\ responses probe.2 = [(500, PError "Error when fetching video ratio")]
      /\ fs probe.1 !! tmp = Some [x00; x00; x00; x18]
      /\ ~ In (ERemove tmp) probe.2).
Proof.
  vm_compute. repeat split; try tauto; intuition discriminate.
Qed.

(** The direct revision registers the removal right after the creation: on
    every path, a temporary file it created is gone when the handler is done. *)
Lemma Direct_staged_file_removed (cfg : apiConfig) (env : Env) (r : Request) (w : World)
    (name : string) :
  let out := serve (Direct.handlerUploadVideo cfg env) r w in
  In (ECreateTemp name) out.2 -> fs out.1 !! name = None /\ In (ERemove name) out.2.
Proof.
  cbv zeta. hsimpl. repeat hcase.
  all: cbn [fst snd In]; intros H.
  all: repeat match goal with H : _ \/ _ |- _ => destruct H as [H|H] end;
       try discriminate H; try contradiction.
  all: injection H as <-; split; [apply lookup_delete_eq|tauto].
Qed.

(** ** The signed-URL revision *)

Lemma strings_Split_nonempty (s : string) (sep : ascii) :
  (1 <= length (strings_Split s sep))%nat.
Proof.
  induction s as [|c s IH]; cbn [strings_Split]; [cbn; lia|].
  destruct (decide (c = sep)); [cbn; lia|].
  destruct (strings_Split s sep); cbn in *; lia.
Qed.

Lemma strings_Split_pair (a b : string) :
  (2 <= length (strings_Split (a +:+ "," +:+ b) ","))%nat.
Proof.
  induction a as [|c a IH].
  - rewrite append_nil, append_cons, append_nil. cbn [strings_Split].
    destruct (decide _); [|contradiction].
    pose proof (strings_Split_nonempty b ","). cbn [length]. lia.
  - rewrite append_cons. cbn [strings_Split].
    destruct (decide (c = ","%char)); [cbn [length]; lia|].
    destruct (strings_Split _ _); cbn in *; lia.
Qed.

Lemma five_seconds : time_Second * 5 = 5000000000.
Proof. reflexivity. Qed.

Ltac split_absurd :=
  match goal with
  | H : (length (strings_Split (?a +:+ "," +:+ ?b) ",") < 2)%nat |- _ =>
      exfalso; pose proof (strings_Split_pair a b); lia
  end.

(** C5: in the signed-URL revision every update sent to the metadata store
    carries "<bucket>,<key>" for the key just uploaded, and the store ends
    either untouched or holding that record; a signed URL is requested only
    with an expiry of five seconds and only after an update that succeeded,
    with no update after it; a 200 response carries the signed URL. *)
Theorem C5_signed_variant_persists_raw_pair
    (cfg : apiConfig) (env : Env) (r : Request) (w : World) :
  let out := serve (Signed.handlerUploadVideo cfg env) r w in
  (forall v err, In (EUpdateVideo v err) out.2 ->
     exists key ct body,
       In (EPutObject (s3Bucket cfg) key ct body) out.2
       /\ VideoURL v = Some (s3Bucket cfg +:+ "," +:+ key))
  /\ (db out.1 = db w
      \/ exists v key,
           db out.1 = <[ID v := v]> (db w)
           /\ VideoURL v = Some (s3Bucket cfg +:+ "," +:+ key))
  /\ (forall b k e, In (EPresign b k e) out.2 ->
        e = time_Second * 5
        /\ exists pre v mid post,
             out.2 = pre ++ EUpdateVideo v None :: mid ++ EPresign b k e :: post
             /\ forall v' err, ~ In (EUpdateVideo v' err) (mid ++ post))
  /\ (forall v, In (ERespond 200 (PVideo v)) out.2 ->
        exists b k url,
          In (EPresign b k (time_Second * 5)) out.2
          /\ s3_PresignGetObject env b k (time_Second * 5) = Ok url
          /\ VideoURL v = Some url).
Proof.
  cbv zeta. hsimpl. repeat hcase.
  all: cbn [fst snd]; try split_absurd.
  all: split; [intros qv qerr Hin; in_cases Hin; injection Hin as <- <-;
               eexists _, _, _; (split; [|reflexivity]); in_list|].
  all: split; [first [left; reflexivity | right; eexists _, _; split; reflexivity]|].
  all: split; [intros qb qk qe Hin; in_cases Hin; injection Hin as <- <- <-;
               (split; [reflexivity|]);
               match goal with
               | |- exists _ _ _ _, ?e1 :: ?e2 :: ?e3 :: ?e4 :: EUpdateVideo ?v None
                                    :: EPresign _ _ _ :: ?post = _ /\ _ =>
                   exists [e1; e2; e3; e4], v, [], post
               end;
               (split; [reflexivity|]); intros qv qerr Hin; in_cases Hin|].
  all: intros qv Hin; in_cases Hin; injection Hin as <-;
       eexists _, _, _; (split; [in_list|]); (split; [eassumption|reflexivity]).
Qed.

Lemma C5_witness :
  let env := Fixture.env_ok [Fixture.stream "video" "9:16"] [] in
  let r := Fixture.request "alice" (Fixture.video_form ["video/mp4"]) in
  let out := serve (Signed.handlerUploadVideo Fixture.cfg env) r Fixture.world0 in
  In (EPresign "tubely" "portrait/asset.mp4" 5000000000) out.2
  /\ exists pre v mid post,
       out.2 = pre ++ EUpdateVideo v None :: mid
                 ++ EPresign "tubely" "portrait/asset.mp4" 5000000000 :: post
       /\ forall v' err, ~ In (EUpdateVideo v' err) (mid ++ post).
Proof.
  cbv zeta.
  assert (In (EPresign "tubely" "portrait/asset.mp4" 5000000000)
            (serve (Signed.handlerUploadVideo Fixture.cfg
                      (Fixture.env_ok [Fixture.stream "video" "9:16"] []))
               (Fixture.request "alice" (Fixture.video_form ["video/mp4"]))
               Fixture.world0).2) as Hin.
  { vm_compute. tauto. }
  split; [exact Hin|].
  destruct (C5_signed_variant_persists_raw_pair Fixture.cfg
              (Fixture.env_ok [Fixture.stream "video" "9:16"] [])
              (Fixture.request "alice" (Fixture.video_form ["video/mp4"]))
              Fixture.world0) as (_ & _ & Hpresign & _).
  exact (proj2 (Hpresign _ _ _ Hin)).
Defined.

(** ** The direct revision: key derivation and persistence *)

(** A run of the direct revision that answers 200: the record in the response
    is the fetched one with the static URL of the key, the key is built from
    one of the three orientations and the 32 random bytes, the object is in
    the bucket under that key and the record is in the store. *)
Lemma Direct_success (cfg : apiConfig) (env : Env) (r : Request) (w : World) (v : Video) :
  let out := serve (Direct.handlerUploadVideo cfg env) r w in
  In (ERespond 200 (PVideo v)) out.2 ->
  exists o video0 body,
    In o orientations
    /\ v = set_VideoURL video0 (static_url cfg (random_key o (rand_Read env 32)))
    /\ In (EPutObject (s3Bucket cfg) (random_key o (rand_Read env 32)) "video/mp4" body) out.2
    /\ In (EUpdateVideo v None) out.2
    /\ db out.1 = <[ID v := v]> (db w)
    /\ s3 out.1 = <[(s3Bucket cfg, random_key o (rand_Read env 32)) :=
                      {| Body := body; ContentType := "video/mp4" |}]> (s3 w).
Proof.
  cbv zeta. hsimpl. repeat hcase.
  all: cbn [fst snd]; intros Hin; in_cases Hin; injection Hin as <-.
  match goal with H : ¬ _ ≠ "video/mp4" |- _ => rewrite (dec_stable H) end.
  eexists _, _, _. split; [apply orientation_scanStreams|].
  unfold static_url, random_key.
  split; [reflexivity|]. split; [in_list|]. split; [in_list|].
  split; reflexivity.
Qed.



Lemma static_url_inj (cfg : apiConfig) (k1 k2 : string) :
  static_url cfg k1 = static_url cfg k2 -> k1 = k2.
Proof. unfold static_url. intros H. now do 5 apply (inj _) in H. Qed.

(** C8: the URL-safe encoding is injective (so in particular on 32-byte
    inputs); two successful uploads for the same record whose random draws
    differ use different storage keys, and each leaves the record in the
    metadata store with the URL of its own key, the second replacing the
    first. *)
Theorem C8_distinct_keys_overwrite
    (cfg : apiConfig) (env1 env2 : Env) (r1 r2 : Request) (w : World) (v1 v2 : Video) :
  let out1 := serve (Direct.handlerUploadVideo cfg env1) r1 w in
  let out2 := serve (Direct.handlerUploadVideo cfg env2) r2 out1.1 in
  In (ERespond 200 (PVideo v1)) out1.2 ->
  In (ERespond 200 (PVideo v2)) out2.2 ->
  ID v1 = ID v2 ->
  rand_Read env1 32 ≠ rand_Read env2 32 ->
  (forall d1 d2 : list byte, EncodeToString d1 = EncodeToString d2 -> d1 = d2)
  /\ exists o1 o2 body1 body2,
       let key1 := random_key o1 (rand_Read env1 32) in
       let key2 := random_key o2 (rand_Read env2 32) in
       key1 ≠ key2
       /\ In (EPutObject (s3Bucket cfg) key1 "video/mp4" body1) out1.2
       /\ In (EPutObject (s3Bucket cfg) key2 "video/mp4" body2) out2.2
       /\ VideoURL v1 = Some (static_url cfg key1)
       /\ VideoURL v2 = Some (static_url cfg key2)
       /\ db out1.1 !! ID v1 = Some v1
       /\ db out2.1 !! ID v1 = Some v2
       /\ VideoURL v1 ≠ VideoURL v2.
Proof.
  cbv zeta. intros H1 H2 Hid Hrand.
  split; [exact EncodeToString_inj|].
  destruct (Direct_success _ _ _ _ _ H1)
    as (o1 & video1 & body1 & Ho1 & Hv1 & Hput1 & _ & Hdb1 & _).
  destruct (Direct_success _ _ _ _ _ H2)
    as (o2 & video2 & body2 & Ho2 & Hv2 & Hput2 & _ & Hdb2 & _).
  exists o1, o2, body1, body2.
  assert (random_key o1 (rand_Read env1 32) ≠ random_key o2 (rand_Read env2 32)) as Hkey.
  { intros Heq. apply random_key_inj in Heq as [_ Heq]; auto. }
  split; [exact Hkey|]. split; [exact Hput1|]. split; [exact Hput2|].
  split; [now rewrite Hv1|]. split; [now rewrite Hv2|].
  split; [rewrite Hdb1; apply lookup_insert_eq|].
  split; [rewrite Hdb2, Hid; apply lookup_insert_eq|].
  rewrite Hv1, Hv2. cbn [VideoURL set_VideoURL].
  intros Heq. apply Hkey, (static_url_inj cfg). congruence.
Qed.

Lemma C8_witness :
  let env1 := Fixture.env_ok [Fixture.stream "video" "9:16"] [x01] in
  let env2 := Fixture.env_ok [Fixture.stream "video" "9:16"] [x02] in
  let r := Fixture.request "alice" (Fixture.video_form ["video/mp4"]) in
  let out1 := serve (Direct.handlerUploadVideo Fixture.cfg env1) r Fixture.world0 in
  let out2 := serve (Direct.handlerUploadVideo Fixture.cfg env2) r out1.1 in
  let v1 := set_VideoURL Fixture.alice_video
              (static_url Fixture.cfg (random_key "portrait" (rand_Read env1 32))) in
  let v2 := set_VideoURL Fixture.alice_video
              (static_url Fixture.cfg (random_key "portrait" (rand_Read env2 32))) in
  rand_Read env1 32 ≠ rand_Read env2 32
  /\ db out1.1 !! "vid-1" = Some v1
  /\ db out2.1 !! "vid-1" = Some v2
  /\ VideoURL v1 ≠ VideoURL v2.
Proof.
  cbv zeta.
  assert (rand_Read (Fixture.env_ok [Fixture.stream "video" "9:16"] [x01]) 32
          ≠ rand_Read (Fixture.env_ok [Fixture.stream "video" "9:16"] [x02]) 32) as Hrand.
  { vm_compute. discriminate. }
  split; [exact Hrand|].
  destruct (C8_distinct_keys_overwrite Fixture.cfg
              (Fixture.env_ok [Fixture.stream "video" "9:16"] [x01])
              (Fixture.env_ok [Fixture.stream "video" "9:16"] [x02])
              (Fixture.request "alice" (Fixture.video_form ["video/mp4"]))
              (Fixture.request "alice" (Fixture.video_form ["video/mp4"]))
              Fixture.world0
              (set_VideoURL Fixture.alice_video
                 (static_url Fixture.cfg (random_key "portrait"
                    (rand_Read (Fixture.env_ok [Fixture.stream "video" "9:16"] [x01]) 32))))
              (set_VideoURL Fixture.alice_video
                 (static_url Fixture.cfg (random_key "portrait"
                    (rand_Read (Fixture.env_ok [Fixture.stream "video" "9:16"] [x02]) 32)))))
    as (_ & o1 & o2 & b1 & b2 & _ & _ & _ & _ & _ & Hdb1 & Hdb2 & Hne).
  - vm_compute. tauto.
  - vm_compute. tauto.
  - reflexivity.
  - exact Hrand.
  - split; [exact Hdb1|]. split; [exact Hdb2|exact Hne].
Defined.

(** * Further properties of the code *)

(** ** Probe *)

(** X1: [getVideoAspectRatio] fails exactly when [ffprobe] fails or its
    output does not unmarshal; a result is always "16:9", "9:16" or "other";
    either way exactly one [ffprobe] process was run, on the given path. *)
Theorem X1_getVideoAspectRatio_outcomes (env : Env) (filepath : string) :
  let out := getVideoAspectRatio env filepath in
  (is_ok out.1 = false <->
     is_ok (ffprobe env (ffprobe_args filepath)) = false
     \/ exists buffer, ffprobe env (ffprobe_args filepath) = Ok buffer
                       /\ is_ok (json_Unmarshal env buffer) = false)
  /\ (forall ratio, out.1 = Ok ratio ->
        ratio = "16:9" \/ ratio = "9:16" \/ ratio = "other")
  /\ out.2 = [ERun "ffprobe"
                ["-v"; "error"; "-print_format"; "json"; "-show_streams"; filepath]].
Proof.
  cbv zeta. unfold getVideoAspectRatio.
  destruct (ffprobe env _) as [buffer|e]; cbn.
  - destruct (json_Unmarshal env buffer) as [meta|e] eqn:Hm; cbn.
    + split; [|split; [|reflexivity]].
      * split; [discriminate|].
        intros [H|(b & [= <-] & H)]; [discriminate H|]. rewrite Hm in H. discriminate H.
      * intros ratio [= <-]. apply scanStreams_cases.
    + split; [|split; [discriminate|reflexivity]].
      split; [|reflexivity]. intros _. right. exists buffer. rewrite Hm. split; reflexivity.
  - split; [|split; [discriminate|reflexivity]].
    split; [|reflexivity]. intros _. left. reflexivity.
Qed.

(** X2: streams that are not of type "video" never decide the ratio, whatever
    their display aspect ratio: dropping them from the probe result leaves
    the answer of the scan unchanged. *)
Theorem X2_scanStreams_ignores_other_streams (streams : list StreamInfo) :
  scanStreams streams
  = scanStreams (List.filter (fun s => bool_decide (CodecType s = "video")) streams).
Proof.
  induction streams as [|s streams IH]; [reflexivity|].
  cbn [scanStreams List.filter].
  destruct (decide (CodecType s ≠ "video")) as [Hc|Hc].
  - rewrite (bool_decide_eq_false_2 _ Hc). exact IH.
  - rewrite (bool_decide_eq_true_2 _ (dec_stable Hc)). cbn [scanStreams].
    destruct (decide (CodecType s ≠ "video")); [contradiction|].
    destruct (decide _); [reflexivity|exact IH].
Qed.

(** ** Signed-URL resolution *)

Lemma strings_Split_field (b rest : string) :
  contains b "," = false ->
  strings_Split (b +:+ "," +:+ rest) "," = b :: strings_Split rest ",".
Proof.
  induction b as [|c b IH]; intros Hb.
  - rewrite append_nil, append_cons, append_nil. cbn [strings_Split].
    destruct (decide _); [reflexivity|contradiction].
  - cbn [contains] in Hb. apply orb_false_iff in Hb as [Hc Hb].
    apply bool_decide_eq_false in Hc.
    rewrite append_cons. cbn [strings_Split].
    destruct (decide (c = ","%char)); [contradiction|].
    now rewrite (IH Hb).
Qed.

(** X3: a record whose video URL is "<bucket>,<key>", with no comma inside
    the bucket or the key, is resolved by one signing request for exactly
    that bucket and key with an expiry of five seconds.  When the signing
    succeeds only the video URL changes, to the signed URL; when it fails the
    record comes back as it was, with the error.  The handler state is not
    touched. *)
Theorem X3_dbVideoToSignedVideo_round_trip
    (env : Env) (video : Video) (bucket key : string) (st : HState) :
  VideoURL video = Some (bucket +:+ "," +:+ key) ->
  contains bucket "," = false ->
  contains key "," = false ->
  Signed.dbVideoToSignedVideo env video st
  = (Next (match s3_PresignGetObject env bucket key 5000000000 with
           | Ok presignedUrl => (set_VideoURL video presignedUrl, None)
           | Err err => (video, Some err)
           end),
     st, [EPresign bucket key 5000000000]).
Proof.
  intros Hurl Hb Hk. unfold Signed.dbVideoToSignedVideo.
  rewrite Hurl, (strings_Split_field _ _ Hb), (strings_Split_no_sep _ _ Hk).
  cbn [length nth]. destruct (decide (2 < 2)%nat) as [Hlt|_]; [lia|].
  cbv [mbind handler_bind hbind Signed.generatePresignedURL emit hret].
  change (time_Second * 5) with 5000000000.
  destruct (s3_PresignGetObject env bucket key _); reflexivity.
Qed.

Lemma X3_witness :
  let video := set_VideoURL Fixture.alice_video "tubely,landscape/asset.mp4" in
  let st := {| world := Fixture.world0;
               req := Fixture.request "alice" (Fixture.video_form ["video/mp4"]);
               deferred := [] |} in
  contains "tubely" "," = false
  /\ Signed.dbVideoToSignedVideo Scenario.env_presign_fails video st
     = (Next (video, Some "failed to sign request"), st,
        [EPresign "tubely" "landscape/asset.mp4" 5000000000]).
Proof.
  cbv zeta. split; [reflexivity|].
  apply (X3_dbVideoToSignedVideo_round_trip Scenario.env_presign_fails
           (set_VideoURL Fixture.alice_video "tubely,landscape/asset.mp4")
           "tubely" "landscape/asset.mp4"); reflexivity.
Defined.

(** X4: only the first two comma-separated fields of the video URL are used:
    when the key itself holds a comma, the signed URL is requested for the
    part of the key before that comma, and what follows is dropped. *)
Theorem X4_dbVideoToSignedVideo_key_truncated
    (env : Env) (video : Video) (bucket key rest : string) (st : HState) :
  VideoURL video = Some (bucket +:+ "," +:+ key +:+ "," +:+ rest) ->
  contains bucket "," = false ->
  contains key "," = false ->
  Signed.dbVideoToSignedVideo env video st
  = (Next (match s3_PresignGetObject env bucket key 5000000000 with
           | Ok presignedUrl => (set_VideoURL video presignedUrl, None)
           | Err err => (video, Some err)
           end),
     st, [EPresign bucket key 5000000000]).
Proof.
  intros Hurl Hb Hk. unfold Signed.dbVideoToSignedVideo.
  rewrite Hurl, (strings_Split_field _ _ Hb), (strings_Split_field _ _ Hk).
  pose proof (strings_Split_nonempty rest ",") as Hrest.
  destruct (strings_Split rest ",") as [|x xs]; [cbn in Hrest; lia|].
  cbn [length nth]. destruct (decide _) as [Hlt|_]; [cbn [length] in Hlt; lia|].
  cbv [mbind handler_bind hbind Signed.generatePresignedURL emit hret].
  change (time_Second * 5) with 5000000000.
  destruct (s3_PresignGetObject env bucket key _); reflexivity.
Qed.

Lemma X4_witness :
  let video := set_VideoURL Fixture.alice_video "tubely,landscape/a,b.mp4" in
  let st := {| world := Fixture.world0;
               req := Fixture.request "alice" (Fixture.video_form ["video/mp4"]);
               deferred := [] |} in
  contains "landscape/a" "," = false
  /\ Signed.dbVideoToSignedVideo Scenario.env_presign_fails video st
     = (Next (video, Some "failed to sign request"), st,
        [EPresign "tubely" "landscape/a" 5000000000]).
Proof.
  cbv zeta. split; [reflexivity|].
  apply (X4_dbVideoToSignedVideo_key_truncated Scenario.env_presign_fails
           (set_VideoURL Fixture.alice_video "tubely,landscape/a,b.mp4")
           "tubely" "landscape/a" "b.mp4"); reflexivity.
Defined.

(** ** The video handlers: responses and the metadata store *)

(** X5: a request that does not pass the ownership check (identifier that
    does not parse, token missing or invalid, unknown record, another user's
    record) gets one error response, 400 or 401; the world is unchanged and
    the response is the only call made. *)
Theorem X5_rejected_before_upload
    (cfg : apiConfig) (env : Env) (r : Request) (w : World) :
  ¬ owner_request cfg env r w ->
  exists code msg,
    serve (Cdn.handlerUploadVideo cfg env) r w = (w, [ERespond code (PError msg)])
    /\ (code = StatusBadRequest \/ code = StatusUnauthorized).
Proof.
  intros Hno. hsimpl.
  hcase; [|eexists _, _; split; [reflexivity|tauto]].
  hcase; [|eexists _, _; split; [reflexivity|tauto]].
  hcase; [|eexists _, _; split; [reflexivity|tauto]].
  hcase; [|eexists _, _; split; [reflexivity|tauto]].
  hcase; [eexists _, _; split; [reflexivity|tauto]|].
  exfalso. apply Hno.
  match goal with H : ¬ UserID _ ≠ _ |- _ => pose proof (dec_stable H) as Hu end.
  eexists _, _, _. split; [eassumption|]. split; [eassumption|].
  split; [|eassumption]. rewrite Hu. eassumption.
Qed.

Lemma X5_witness :
  let r := {| PathValue := fun _ => "vid-1"; ReqHeader := ∅;
              MultipartForm := None; ReadForm := Fixture.video_form ["video/mp4"] |} in
  ¬ owner_request Fixture.cfg (Fixture.env_ok [] []) r Fixture.world0
  /\ exists code msg,
       serve (Cdn.handlerUploadVideo Fixture.cfg (Fixture.env_ok [] [])) r Fixture.world0
       = (Fixture.world0, [ERespond code (PError msg)])
       /\ (code = StatusBadRequest \/ code = StatusUnauthorized).
Proof.
  cbv zeta.
  assert (¬ owner_request Fixture.cfg (Fixture.env_ok [] [])
            {| PathValue := fun _ => "vid-1"; ReqHeader := ∅;
               MultipartForm := None; ReadForm := Fixture.video_form ["video/mp4"] |}
            Fixture.world0) as Hno.
  { intros (videoID & token & video & _ & Htoken & _). vm_compute in Htoken. discriminate. }
  split; [exact Hno|].
  exact (X5_rejected_before_upload _ _ _ _ Hno).
Defined.

Ltac split_at_respond l :=
  lazymatch l with
  | ERespond ?c ?p :: ?post => constr:((@nil Event, c, p, post))
  | ?e :: ?rest =>
      let r := split_at_respond rest in
      lazymatch r with
      | (?pre, ?c, ?p, ?post) => constr:((e :: pre, c, p, post))
      end
  end.

Ltac one_response :=
  unfold one_response_then_cleanup;
  lazymatch goal with
  | |- exists _ _ _ _, ?l = _ /\ _ =>
      let r := split_at_respond l in
      lazymatch r with
      | (?pre, ?c, ?p, ?post) => exists pre, c, p, post
      end
  end;
  split; [reflexivity|split; reflexivity].

(** X6: on every path of each revision of the video handler exactly one
    response is sent; no temporary file is closed or removed before it, and
    after it nothing happens but the deferred closing and removing. *)
Theorem X6_one_response_then_cleanup
    (cfg : apiConfig) (env : Env) (r : Request) (w : World) :
  one_response_then_cleanup (serve (Cdn.handlerUploadVideo cfg env) r w).2
  /\ one_response_then_cleanup (serve (Signed.handlerUploadVideo cfg env) r w).2
  /\ one_response_then_cleanup (serve (Direct.handlerUploadVideo cfg env) r w).2.
Proof.
  split; [|split].
  all: hsimpl; repeat hcase.
  all: cbn [fst snd]; try split_absurd.
  all: one_response.
Qed.

(** X7: in the CDN and the direct revision the metadata store changes only
    on a 200: either it is as before, or the response is 200 with a record
    and the store holds exactly that record under the record's identifier. *)
Theorem X7_store_changes_only_on_success
    (cfg : apiConfig) (env : Env) (r : Request) (w : World) :
  let cdn := serve (Cdn.handlerUploadVideo cfg env) r w in
  let direct := serve (Direct.handlerUploadVideo cfg env) r w in
  (db cdn.1 = db w
   \/ exists v, responses cdn.2 = [(200, PVideo v)] /\ db cdn.1 = <[ID v := v]> (db w))
  /\ (db direct.1 = db w
      \/ exists v, responses direct.2 = [(200, PVideo v)]
                   /\ db direct.1 = <[ID v := v]> (db w)).
Proof.
  cbv zeta. split.
  all: hsimpl; repeat hcase.
  all: cbn [fst snd].
  all: first [left; reflexivity | right; eexists; split; reflexivity].
Qed.

(** X8: in the signed-URL revision a signing failure comes after the record
    was persisted: the response is 500 "Error when updating video", the same
    as for a failed update, yet the store already holds the record with
    "<bucket>,<key>". *)
Theorem X8_signing_failure_after_persist
    (cfg : apiConfig) (env : Env) (r : Request) (w : World)
    (bucket key : string) (expires : Z) (err : error) :
  let out := serve (Signed.handlerUploadVideo cfg env) r w in
  In (EPresign bucket key expires) out.2 ->
  s3_PresignGetObject env bucket key expires = Err err ->
  responses out.2 = [(StatusInternalServerError, PError "Error when updating video")]
  /\ exists v k,
       In (EUpdateVideo v None) out.2
       /\ VideoURL v = Some (s3Bucket cfg +:+ "," +:+ k)
       /\ db out.1 = <[ID v := v]> (db w).
Proof.
  cbv zeta. hsimpl. repeat hcase.
  all: cbn [fst snd]; try split_absurd.
  all: intros Hin Herr; in_cases Hin; injection Hin as <- <- <-.
  all: try congruence.
  all: split; [reflexivity|].
  all: eexists _, _; (split; [in_list|]); split; reflexivity.
Qed.

Lemma X8_witness :
  let r := Fixture.request "alice" (Fixture.video_form ["video/mp4"]) in
  let out := serve (Signed.handlerUploadVideo Fixture.cfg Scenario.env_presign_fails)
               r Fixture.world0 in
  In (EPresign "tubely" "landscape/asset.mp4" 5000000000) out.2
  /\ responses out.2 = [(StatusInternalServerError, PError "Error when updating video")]
  /\ exists v k,
       In (EUpdateVideo v None) out.2
       /\ VideoURL v = Some (s3Bucket Fixture.cfg +:+ "," +:+ k)
       /\ db out.1 = <[ID v := v]> (db Fixture.world0).
Proof.
  cbv zeta.
  assert (In (EPresign "tubely" "landscape/asset.mp4" 5000000000)
            (serve (Signed.handlerUploadVideo Fixture.cfg Scenario.env_presign_fails)
               (Fixture.request "alice" (Fixture.video_form ["video/mp4"]))
               Fixture.world0).2) as Hin.
  { vm_compute. tauto. }
  split; [exact Hin|].
  exact (X8_signing_failure_after_persist Fixture.cfg Scenario.env_presign_fails
           (Fixture.request "alice" (Fixture.video_form ["video/mp4"])) Fixture.world0
           "tubely" "landscape/asset.mp4" 5000000000 "failed to sign request"
           Hin eq_refl).
Defined.

(** ** The CDN revision: stored object, record and temporary files *)

Lemma processing_path_fresh (name : string) : name ≠ name +:+ ".processing".
Proof.
  intros H. apply (f_equal String.length) in H.
  rewrite length_append in H. cbn in H. lia.
Qed.

(** X9: a successful upload of the CDN revision stores a non-empty object,
    the file the remux left, under "<orientation>/<asset path>" with content
    type "video/mp4", where the orientation is the classification of the
    probe result for the staged file; the store then holds the record that
    was fetched for the identifier of the request, with its video URL set to
    "https://<distribution>/<key>". *)
Theorem X9_cdn_success
    (cfg : apiConfig) (env : Env) (r : Request) (w : World) (v : Video) :
  let out := serve (Cdn.handlerUploadVideo cfg env) r w in
  In (ERespond 200 (PVideo v)) out.2 ->
  exists videoID video0 name meta body,
    let key := classification meta +:+ "/" +:+ getAssetPath env "video/mp4" in
    uuid_Parse env (PathValue r "videoID") = Ok videoID
    /\ db w !! videoID = Some video0
    /\ os_CreateTemp env EmptyString "tubely-upload.mp4" = Ok name
    /\ (exists buffer, ffprobe env (ffprobe_args name) = Ok buffer
                       /\ json_Unmarshal env buffer = Ok meta)
    /\ v = set_VideoURL video0 (cdn_url cfg key)
    /\ db out.1 = <[ID v := v]> (db w)
    /\ s3 out.1 = <[(s3Bucket cfg, key) := {| Body := body; ContentType := "video/mp4" |}]> (s3 w)
    /\ length body ≠ 0%nat
    /\ (forall c, snd (ffmpeg env (ffmpeg_args name (name +:+ ".processing"))) = Some c ->
          body = c).
Proof.
  cbv zeta. hsimpl. repeat hcase.
  all: cbn [fst snd]; intros Hin; in_cases Hin; injection Hin as <-.
  all: video_mp4.
  all: eexists _, _, _, _, _; (split; [reflexivity|]); (split; [eassumption|]).
  all: (split; [reflexivity|]); (split; [eexists; split; eassumption|]).
  all: unfold cdn_url, classification; (split; [reflexivity|]); (split; [reflexivity|]);
       (split; [reflexivity|]); (split; [lia|]).
  all: intros c Hc;
       match goal with
       | H : ffmpeg _ _ = _ |- _ => rewrite H in Hc; cbn [snd] in Hc
       end; try discriminate Hc; injection Hc as <-.
  all: match goal with
       | H : <[?k := _]> _ !! ?k = Some _ |- _ =>
           rewrite lookup_insert_eq in H; now injection H
       end.
Qed.

Lemma X9_witness :
  let r := Fixture.request "alice" (Fixture.video_form ["video/mp4"]) in
  let env := Fixture.env_ok [Fixture.stream "video" "9:16"] [] in
  let out := serve (Cdn.handlerUploadVideo Fixture.cfg env) r Fixture.world0 in
  let v := set_VideoURL Fixture.alice_video "https://d111.cloudfront.net/portrait/asset.mp4" in
  In (ERespond 200 (PVideo v)) out.2
  /\ exists videoID video0 name meta body,
       let key := classification meta +:+ "/" +:+ getAssetPath env "video/mp4" in
       uuid_Parse env (PathValue r "videoID") = Ok videoID
       /\ db Fixture.world0 !! videoID = Some video0
       /\ os_CreateTemp env EmptyString "tubely-upload.mp4" = Ok name
       /\ (exists buffer, ffprobe env (ffprobe_args name) = Ok buffer
                          /\ json_Unmarshal env buffer = Ok meta)
       /\ v = set_VideoURL video0 (cdn_url Fixture.cfg key)
       /\ db out.1 = <[ID v := v]> (db Fixture.world0)
       /\ s3 out.1 = <[(s3Bucket Fixture.cfg, key) :=
                         {| Body := body; ContentType := "video/mp4" |}]> (s3 Fixture.world0)
       /\ length body ≠ 0%nat
       /\ (forall c, snd (ffmpeg env (ffmpeg_args name (name +:+ ".processing"))) = Some c ->
             body = c).
Proof.
  cbv zeta.
  assert (In (ERespond 200 (PVideo (set_VideoURL Fixture.alice_video
                "https://d111.cloudfront.net/portrait/asset.mp4")))
            (serve (Cdn.handlerUploadVideo Fixture.cfg
                      (Fixture.env_ok [Fixture.stream "video" "9:16"] []))
               (Fixture.request "alice" (Fixture.video_form ["video/mp4"]))
               Fixture.world0).2) as Hin.
  { vm_compute. tauto. }
  split; [exact Hin|].
  exact (X9_cdn_success _ _ _ _ _ Hin).
Defined.

(** X10: when the metadata update fails in the CDN revision the response is
    500 and the store is unchanged, but the object uploaded just before stays
    in the bucket under the key the record would have pointed to: nothing
    deletes it. *)
Theorem X10_update_failure_keeps_object
    (cfg : apiConfig) (env : Env) (r : Request) (w : World) (v : Video) (err : error) :
  let out := serve (Cdn.handlerUploadVideo cfg env) r w in
  In (EUpdateVideo v (Some err)) out.2 ->
  responses out.2 = [(StatusInternalServerError, PError "Error when updating video")]
  /\ db out.1 = db w
  /\ exists key body,
       VideoURL v = Some (cdn_url cfg key)
       /\ s3 out.1 !! (s3Bucket cfg, key)
          = Some {| Body := body; ContentType := "video/mp4" |}.
Proof.
  cbv zeta. hsimpl. repeat hcase.
  all: cbn [fst snd]; intros Hin; in_cases Hin; injection Hin as <- <-.
  all: video_mp4.
  all: (split; [reflexivity|]); (split; [reflexivity|]).
  all: eexists _, _; (split; [reflexivity|]); apply lookup_insert_eq.
Qed.

Lemma X10_witness :
  let r := Fixture.request "alice" (Fixture.video_form ["video/mp4"]) in
  let out := serve (Cdn.handlerUploadVideo Fixture.cfg Scenario.env_update_fails)
               r Fixture.world0 in
  let v := set_VideoURL Fixture.alice_video "https://d111.cloudfront.net/landscape/asset.mp4" in
  In (EUpdateVideo v (Some "database is locked")) out.2
  /\ responses out.2 = [(StatusInternalServerError, PError "Error when updating video")]
  /\ db out.1 = db Fixture.world0
  /\ exists key body,
       VideoURL v = Some (cdn_url Fixture.cfg key)
       /\ s3 out.1 !! (s3Bucket Fixture.cfg, key)
          = Some {| Body := body; ContentType := "video/mp4" |}.
Proof.
  cbv zeta.
  assert (In (EUpdateVideo (set_VideoURL Fixture.alice_video
                "https://d111.cloudfront.net/landscape/asset.mp4")
                (Some "database is locked"))
            (serve (Cdn.handlerUploadVideo Fixture.cfg Scenario.env_update_fails)
               (Fixture.request "alice" (Fixture.video_form ["video/mp4"]))
               Fixture.world0).2) as Hin.
  { vm_compute. tauto. }
  split; [exact Hin|].
  exact (X10_update_failure_keeps_object _ _ _ _ _ _ Hin).
Defined.

(** X11: in the CDN revision, once the remux has been started the staged
    file is removed when the handler is done, whatever happens next; and once
    the upload has been issued the processed file is removed as well. *)
Theorem X11_temporary_files_removed_after_probe
    (cfg : apiConfig) (env : Env) (r : Request) (w : World) (name : string) :
  let out := serve (Cdn.handlerUploadVideo cfg env) r w in
  In (ERun "ffmpeg" (ffmpeg_args name (name +:+ ".processing"))) out.2 ->
  (fs out.1 !! name = None /\ In (ERemove name) out.2)
  /\ (forall bucket key ct body, In (EPutObject bucket key ct body) out.2 ->
        fs out.1 !! (name +:+ ".processing") = None
        /\ In (ERemove (name +:+ ".processing")) out.2).
Proof.
  cbv zeta. hsimpl. repeat hcase.
  all: cbn [fst snd]; intros Hin; in_cases Hin; injection Hin as <-.
  all: split; [split; [apply lookup_delete_eq|in_list]|].
  all: intros qb qk qct qbody Hput; in_cases Hput.
  all: split; [|in_list].
  all: rewrite lookup_delete_ne by apply processing_path_fresh.
  all: apply lookup_delete_eq.
Qed.

Lemma X11_witness :
  let r := Fixture.request "alice" (Fixture.video_form ["video/mp4"]) in
  let out := serve (Cdn.handlerUploadVideo Fixture.cfg Scenario.env_update_fails)
               r Fixture.world0 in
  let name := "/tmp/tubely-upload.mp442" in
  In (ERun "ffmpeg" (ffmpeg_args name (name +:+ ".processing"))) out.2
  /\ fs out.1 !! name = None
  /\ fs out.1 !! (name +:+ ".processing") = None.
Proof.
  cbv zeta.
  assert (In (ERun "ffmpeg" (ffmpeg_args "/tmp/tubely-upload.mp442"
                               ("/tmp/tubely-upload.mp442" +:+ ".processing")))
            (serve (Cdn.handlerUploadVideo Fixture.cfg Scenario.env_update_fails)
               (Fixture.request "alice" (Fixture.video_form ["video/mp4"]))
               Fixture.world0).2) as Hin.
  { vm_compute. tauto. }
  split; [exact Hin|].
  destruct (X11_temporary_files_removed_after_probe Fixture.cfg Scenario.env_update_fails
              (Fixture.request "alice" (Fixture.video_form ["video/mp4"])) Fixture.world0
              "/tmp/tubely-upload.mp442" Hin) as [[Hstaged _] Hprocessed].
  split; [exact Hstaged|].
  refine (proj1 (Hprocessed "tubely" "landscape/asset.mp4" "video/mp4" [x01] _)).
  vm_compute. tauto.
Defined.

(** X12: in the CDN revision the removal of the processed file is deferred
    only after a successful remux.  When [ffmpeg] leaves a file at the output
    path and the remux still fails ([ffmpeg] exits with an error, or the file
    is empty), the handler answers 500, removes the staged file, and the file
    at the output path stays on disk. *)
Theorem X12_output_left_on_remux_failure
    (cfg : apiConfig) (env : Env) (r : Request) (w : World)
    (name : string) (ferr : option error) (c : list byte) :
  let out := serve (Cdn.handlerUploadVideo cfg env) r w in
  In (ERun "ffmpeg" (ffmpeg_args name (name +:+ ".processing"))) out.2 ->
  ffmpeg env (ffmpeg_args name (name +:+ ".processing")) = (ferr, Some c) ->
  is_Some ferr \/ c = [] ->
  responses out.2
  = [(StatusInternalServerError, PError "Error when converting video for streaming")]
  /\ fs out.1 !! (name +:+ ".processing") = Some c
  /\ ~ In (ERemove (name +:+ ".processing")) out.2
  /\ fs out.1 !! name = None.
Proof.
  cbv zeta. hsimpl. repeat hcase.
  all: cbn [fst snd]; intros Hin Hrun Hfail; in_cases Hin; injection Hin as <-.
  all: try congruence.
  all: match goal with
       | Hq : ffmpeg _ ?a = (?x, Some ?y) |- _ =>
           assert (ferr = x /\ c = y) as [-> ->] by (split; congruence)
       end.
  all: try match goal with
       | H : <[?k := _]> _ !! ?k = Some _ |- _ =>
           rewrite lookup_insert_eq in H; injection H as <-
       end.
  all: try (exfalso; destruct Hfail as [[? Hf]|Hf]; [discriminate Hf|];
            match goal with
            | N : Z.of_nat (length _) ≠ 0 |- _ => apply N; rewrite Hf; reflexivity
            end).
  all: split; [reflexivity|].
  all: split; [rewrite lookup_delete_ne by apply processing_path_fresh;
               apply lookup_insert_eq|].
  all: split; [|apply lookup_delete_eq].
  all: intros Hrm; in_cases Hrm; injection Hrm as Hrm;
       exact (processing_path_fresh _ Hrm).
Qed.

Lemma X12_witness :
  let r := Fixture.request "alice" (Fixture.video_form ["video/mp4"]) in
  let out := serve (Cdn.handlerUploadVideo Fixture.cfg Scenario.env_remux_empty)
               r Fixture.world0 in
  let name := "/tmp/tubely-upload.mp442" in
  In (ERun "ffmpeg" (ffmpeg_args name (name +:+ ".processing"))) out.2
  /\ responses out.2
     = [(StatusInternalServerError, PError "Error when converting video for streaming")]
  /\ fs out.1 !! (name +:+ ".processing") = Some []
  /\ ~ In (ERemove (name +:+ ".processing")) out.2
  /\ fs out.1 !! name = None.
Proof.
  cbv zeta.
  assert (In (ERun "ffmpeg" (ffmpeg_args "/tmp/tubely-upload.mp442"
                               ("/tmp/tubely-upload.mp442" +:+ ".processing")))
            (serve (Cdn.handlerUploadVideo Fixture.cfg Scenario.env_remux_empty)
               (Fixture.request "alice" (Fixture.video_form ["video/mp4"]))
               Fixture.world0).2) as Hin.
  { vm_compute. tauto. }
  split; [exact Hin|].
  apply (X12_output_left_on_remux_failure Fixture.cfg Scenario.env_remux_empty
           (Fixture.request "alice" (Fixture.video_form ["video/mp4"])) Fixture.world0
           "/tmp/tubely-upload.mp442" None [] Hin); [reflexivity|right; reflexivity].
Defined.

(** X13: whatever record a video handler sends to the metadata store is the
    record it fetched for the identifier of the request with only the video
    URL replaced: identifier, owner and thumbnail reference are never
    changed.  This holds for the three revisions. *)
Theorem X13_update_changes_only_video_url
    (cfg : apiConfig) (env : Env) (r : Request) (w : World) (v : Video) (err : option error) :
  In (EUpdateVideo v err) (serve (Cdn.handlerUploadVideo cfg env) r w).2
  \/ In (EUpdateVideo v err) (serve (Signed.handlerUploadVideo cfg env) r w).2
  \/ In (EUpdateVideo v err) (serve (Direct.handlerUploadVideo cfg env) r w).2 ->
  exists videoID video0 url,
    uuid_Parse env (PathValue r "videoID") = Ok videoID
    /\ db w !! videoID = Some video0
    /\ v = set_VideoURL video0 url
    /\ ID v = ID video0 /\ UserID v = UserID video0
    /\ ThumbnailURL v = ThumbnailURL video0.
Proof.
  intros [Hin|[Hin|Hin]]; revert Hin.
  all: hsimpl; repeat hcase.
  all: cbn [fst snd]; try split_absurd.
  all: intros Hin; in_cases Hin; injection Hin as <- <-.
  all: eexists _, _, _; (split; [reflexivity|]); (split; [eassumption|]).
  all: (split; [reflexivity|]); (split; [reflexivity|]); split; reflexivity.
Qed.

Lemma X13_witness :
  let r := Fixture.request "alice" (Fixture.video_form ["video/mp4"]) in
  let v := set_VideoURL Fixture.alice_video "https://d111.cloudfront.net/landscape/asset.mp4" in
  In (EUpdateVideo v (Some "database is locked"))
     (serve (Cdn.handlerUploadVideo Fixture.cfg Scenario.env_update_fails) r Fixture.world0).2
  /\ exists videoID video0 url,
       uuid_Parse Scenario.env_update_fails (PathValue r "videoID") = Ok videoID
       /\ db Fixture.world0 !! videoID = Some video0
       /\ v = set_VideoURL video0 url
       /\ ID v = ID video0 /\ UserID v = UserID video0
       /\ ThumbnailURL v = ThumbnailURL video0.
Proof.
  cbv zeta.
  assert (In (EUpdateVideo (set_VideoURL Fixture.alice_video
                "https://d111.cloudfront.net/landscape/asset.mp4")
                (Some "database is locked"))
            (serve (Cdn.handlerUploadVideo Fixture.cfg Scenario.env_update_fails)
               (Fixture.request "alice" (Fixture.video_form ["video/mp4"]))
               Fixture.world0).2) as Hin.
  { vm_compute. tauto. }
  split; [exact Hin|].
  exact (X13_update_changes_only_video_url _ _ _ _ _ _ (or_introl Hin)).
Defined.

(** ** The thumbnail upload of the disk revision *)

Ltac tsimpl :=
  cbv beta iota zeta delta
    [serve Thumbnail.handlerUploadThumbnail_disk Thumbnail.handlerUploadThumbnail
     Thumbnail.os_Create_call Thumbnail.io_ReadAll_call
     mbind mret handler_bind handler_ret hbind hret hreturn hpanic emit defer
     getReq getWorld setWorld setReq respondWithError respondWithJSON
     orRespond orRespondErr db_GetVideo db_UpdateVideo_call r_ParseMultipartForm
     r_FormFile io_Copy_call run_one run_deferred
     world req deferred app fst snd];
  cbn [fs s3 db set_fs set_s3 set_db VideoURL ThumbnailURL set_ThumbnailURL].

Ltac tcase :=
  match goal with
  | |- context [match ?x with _ => _ end] =>
      lazymatch x with
      | context [match _ with _ => _ end] => fail
      | _ => first [ match goal with H : x = _ |- _ => rewrite H end
                   | destruct x eqn:? ]
      end
  end; tsimpl.

(** What [FormFile] finds after the discarded [ParseMultipartForm] is what it
    finds on the request as it came. *)
Lemma FormFile_parsed (r r' r'' : Request) (perr : option error) (key : string)
    (res : result FileHeader) :
  ParseMultipartForm r = (perr, r') ->
  FormFile r' key = (res, r'') ->
  FormFile r key = (res, r'').
Proof.
  intros HP HF. rewrite <- (FormFile_after_parse r key), HP. exact HF.
Qed.

(** X14: the disk revision of [handlerUploadThumbnail] accepts the media
    types "image/jpg" and "image/png" only; any other type, "image/jpeg"
    included, is answered 400 "Invalid file type" and nothing is written.  The check comes before
    the record is fetched, so it does not matter whether the video exists or
    whose it is. *)
Theorem X14_thumbnail_type_rejected
    (cfg : apiConfig) (env : Env) (aenv : Thumbnail.AssetEnv) (r : Request) (w : World)
    (videoID userID : UUID) (token mediaType : string) (header : FileHeader) :
  uuid_Parse env (PathValue r "videoID") = Ok videoID ->
  auth_GetBearerToken env (ReqHeader r) = Ok token ->
  auth_ValidateJWT env token (jwtSecret cfg) = Ok userID ->
  fst (FormFile r "thumbnail") = Ok header ->
  mime_ParseMediaType env (Header_Get (Header header) "Content-Type") = Ok mediaType ->
  mediaType ≠ "image/jpg" ->
  mediaType ≠ "image/png" ->
  serve (Thumbnail.handlerUploadThumbnail_disk cfg env aenv) r w
  = (w, [ERespond StatusBadRequest (PError "Invalid file type");
         ERemoveAll; EClose "thumbnail"]).
Proof.
  intros H1 H2 H3 Hfile Hmime Hjpg Hpng.
  tsimpl. do 3 tcase.
  destruct (ParseMultipartForm r) as [perr r'] eqn:HP. tsimpl.
  destruct (FormFile r' "thumbnail") as [res r''] eqn:HF. tsimpl.
  rewrite (FormFile_parsed _ _ _ _ _ _ HP HF) in Hfile. cbn [fst] in Hfile. subst res. tsimpl.
  tcase.
  destruct (decide (mediaType ≠ "image/jpg" ∧ mediaType ≠ "image/png")) as [_|Hno];
    [reflexivity|tauto].
Qed.

Lemma X14_witness :
  let r := Fixture.request "bob" (Scenario.thumbnail_form (Scenario.typed "image/jpeg")) in
  "image/jpeg" ≠ "image/jpg"
  /\ serve (Thumbnail.handlerUploadThumbnail_disk Fixture.cfg (Fixture.env_ok [] [])
              Scenario.aenv_ok) r Fixture.world0
     = (Fixture.world0, [ERespond StatusBadRequest (PError "Invalid file type");
                         ERemoveAll; EClose "thumbnail"]).
Proof.
  cbv zeta. split; [discriminate|].
  apply (X14_thumbnail_type_rejected Fixture.cfg (Fixture.env_ok [] []) Scenario.aenv_ok
           (Fixture.request "bob" (Scenario.thumbnail_form (Scenario.typed "image/jpeg")))
           Fixture.world0 "vid-1" "bob" "bob" "image/jpeg"
           (Scenario.thumbnail (Scenario.typed "image/jpeg")));
    first [vm_compute; reflexivity | discriminate].
Defined.

(** X15: the disk revision of [handlerUploadThumbnail] answers 401 to an
    accepted image sent for another user's video, without creating the asset file or touching the
    record. *)
Theorem X15_thumbnail_ownership
    (cfg : apiConfig) (env : Env) (aenv : Thumbnail.AssetEnv) (r : Request) (w : World)
    (videoID userID : UUID) (token mediaType : string) (header : FileHeader)
    (video : Video) :
  uuid_Parse env (PathValue r "videoID") = Ok videoID ->
  auth_GetBearerToken env (ReqHeader r) = Ok token ->
  auth_ValidateJWT env token (jwtSecret cfg) = Ok userID ->
  fst (FormFile r "thumbnail") = Ok header ->
  mime_ParseMediaType env (Header_Get (Header header) "Content-Type") = Ok mediaType ->
  mediaType = "image/jpg" \/ mediaType = "image/png" ->
  db w !! videoID = Some video ->
  UserID video ≠ userID ->
  serve (Thumbnail.handlerUploadThumbnail_disk cfg env aenv) r w
  = (w, [ERespond StatusUnauthorized (PError "User is not the owner of the video");
         ERemoveAll; EClose "thumbnail"]).
Proof.
  intros H1 H2 H3 Hfile Hmime Htype Hdb Hother.
  tsimpl. do 3 tcase.
  destruct (ParseMultipartForm r) as [perr r'] eqn:HP. tsimpl.
  destruct (FormFile r' "thumbnail") as [res r''] eqn:HF. tsimpl.
  rewrite (FormFile_parsed _ _ _ _ _ _ HP HF) in Hfile. cbn [fst] in Hfile. subst res. tsimpl.
  tcase.
  destruct (decide (mediaType ≠ "image/jpg" ∧ mediaType ≠ "image/png")) as [Hno|_];
    [tauto|]. tsimpl.
  tcase.
  destruct (decide (UserID video ≠ userID)); [reflexivity|contradiction].
Qed.

Lemma X15_witness :
  let r := Fixture.request "bob" (Scenario.thumbnail_form (Scenario.typed "image/png")) in
  UserID Fixture.alice_video ≠ "bob"
  /\ serve (Thumbnail.handlerUploadThumbnail_disk Fixture.cfg (Fixture.env_ok [] [])
              Scenario.aenv_ok) r Fixture.world0
     = (Fixture.world0,
        [ERespond StatusUnauthorized (PError "User is not the owner of the video");
         ERemoveAll; EClose "thumbnail"]).
Proof.
  cbv zeta. split; [vm_compute; discriminate|].
  apply (X15_thumbnail_ownership Fixture.cfg (Fixture.env_ok [] []) Scenario.aenv_ok
           (Fixture.request "bob" (Scenario.thumbnail_form (Scenario.typed "image/png")))
           Fixture.world0 "vid-1" "bob" "bob" "image/png"
           (Scenario.thumbnail (Scenario.typed "image/png")) Fixture.alice_video);
    first [vm_compute; reflexivity | right; reflexivity | vm_compute; discriminate].
Defined.

Ltac image_type :=
  match goal with
  | H : ¬ (?m ≠ "image/jpg" ∧ ?m ≠ "image/png") |- _ =>
      let Ht := fresh "Htype" in
      assert (m = "image/jpg" \/ m = "image/png") as Ht
        by (destruct (decide (m = "image/jpg")); [left; assumption|];
            destruct (decide (m = "image/png")); [right; assumption|];
            exfalso; apply H; split; assumption)
  end.

(** X16: a 200 of the disk revision of [handlerUploadThumbnail] means: the
    media type parsed from the declared content type of the "thumbnail" form
    file was "image/jpg" or "image/png"; the asset file, at the disk path of
    the asset path of the request's video identifier and that media type,
    holds what was copied from the upload; the store holds the record fetched
    for that identifier with only the thumbnail URL replaced, by the asset
    URL; the object store is untouched. *)
Theorem X16_thumbnail_success
    (cfg : apiConfig) (env : Env) (aenv : Thumbnail.AssetEnv) (r : Request) (w : World)
    (v : Video) :
  let out := serve (Thumbnail.handlerUploadThumbnail_disk cfg env aenv) r w in
  In (ERespond 200 (PVideo v)) out.2 ->
  exists videoID video0 header mediaType r',
    let assetPath := Thumbnail.getAssetPath aenv videoID mediaType in
    uuid_Parse env (PathValue r "videoID") = Ok videoID
    /\ FormFile r "thumbnail" = (Ok header, r')
    /\ mime_ParseMediaType env (Header_Get (Header header) "Content-Type") = Ok mediaType
    /\ (mediaType = "image/jpg" \/ mediaType = "image/png")
    /\ db w !! videoID = Some video0
    /\ v = set_ThumbnailURL video0 (Thumbnail.getAssetURL aenv assetPath)
    /\ VideoURL v = VideoURL video0
    /\ db out.1 = <[ID v := v]> (db w)
    /\ fs out.1 !! Thumbnail.getAssetDiskPath aenv assetPath
       = Some (io_Copy env (content header)).1
    /\ s3 out.1 = s3 w.
Proof.
  cbv zeta. tsimpl. repeat tcase.
  all: cbn [fst snd]; intros Hin; in_cases Hin; injection Hin as <-.
  image_type.
  eexists _, _, _, _, _.
  split; [reflexivity|].
  split; [eapply FormFile_parsed; eassumption|].
  split; [eassumption|].
  split; [exact Htype|]. split; [eassumption|].
  split; [reflexivity|]. split; [reflexivity|]. split; [reflexivity|].
  split; [|reflexivity].
  rewrite lookup_insert_eq.
  match goal with H : io_Copy _ _ = _ |- _ => rewrite H end. reflexivity.
Qed.

Lemma X16_witness :
  let r := Fixture.request "alice" (Scenario.thumbnail_form (Scenario.typed "image/png")) in
  let out := serve (Thumbnail.handlerUploadThumbnail_disk Fixture.cfg (Fixture.env_ok [] [])
                      Scenario.aenv_ok) r Fixture.world0 in
  let v := set_ThumbnailURL Fixture.alice_video "http://localhost:8091/assets/vid-1.png" in
  In (ERespond 200 (PVideo v)) out.2
  /\ fs out.1 !! "assets/vid-1.png" = Some [x89; x50; x4e; x47]
  /\ db out.1 !! "vid-1" = Some v.
Proof.
  cbv zeta.
  assert (In (ERespond 200 (PVideo (set_ThumbnailURL Fixture.alice_video
                                      "http://localhost:8091/assets/vid-1.png")))
            (serve (Thumbnail.handlerUploadThumbnail_disk Fixture.cfg (Fixture.env_ok [] [])
                      Scenario.aenv_ok)
               (Fixture.request "alice" (Scenario.thumbnail_form (Scenario.typed "image/png")))
               Fixture.world0).2) as Hin.
  { vm_compute. tauto. }
  split; [exact Hin|].
  destruct (X16_thumbnail_success _ _ _ _ _ _ Hin)
    as (videoID & video0 & header & mediaType & r' & _ & _ & _ & _ & _ & _ & _ & Hdb & _ & _).
  split; [vm_compute; reflexivity|].
  rewrite Hdb. apply lookup_insert_eq.
Defined.

(** X17: the disk revision of [handlerUploadThumbnail] never removes the
    asset file it created.  When the metadata update fails the response is 500 and the
    store is unchanged, but the file written for the thumbnail is on disk; no
    removal is issued on any path. *)
Theorem X17_thumbnail_file_kept_on_update_failure
    (cfg : apiConfig) (env : Env) (aenv : Thumbnail.AssetEnv) (r : Request) (w : World)
    (v : Video) (err : error) :
  let out := serve (Thumbnail.handlerUploadThumbnail_disk cfg env aenv) r w in
  In (EUpdateVideo v (Some err)) out.2 ->
  responses out.2 = [(StatusInternalServerError, PError "Error when updating thumbnail")]
  /\ db out.1 = db w
  /\ (forall path, ~ In (ERemove path) out.2)
  /\ exists assetPath,
       ThumbnailURL v = Some (Thumbnail.getAssetURL aenv assetPath)
       /\ is_Some (fs out.1 !! Thumbnail.getAssetDiskPath aenv assetPath).
Proof.
  cbv zeta. tsimpl. repeat tcase.
  all: cbn [fst snd]; intros Hin; in_cases Hin; injection Hin as <- <-.
  split; [reflexivity|]. split; [reflexivity|].
  split; [intros path Hrm; in_cases Hrm|].
  eexists. split; [reflexivity|].
  rewrite lookup_insert_eq. eauto.
Qed.

Lemma X17_witness :
  let r := Fixture.request "alice" (Scenario.thumbnail_form (Scenario.typed "image/png")) in
  let out := serve (Thumbnail.handlerUploadThumbnail_disk Fixture.cfg Scenario.env_update_fails
                      Scenario.aenv_ok) r Fixture.world0 in
  let v := set_ThumbnailURL Fixture.alice_video "http://localhost:8091/assets/vid-1.png" in
  In (EUpdateVideo v (Some "database is locked")) out.2
  /\ db out.1 = db Fixture.world0
  /\ fs out.1 !! "assets/vid-1.png" = Some [x89; x50; x4e; x47].
Proof.
  cbv zeta.
  assert (In (EUpdateVideo (set_ThumbnailURL Fixture.alice_video
                              "http://localhost:8091/assets/vid-1.png")
                (Some "database is locked"))
            (serve (Thumbnail.handlerUploadThumbnail_disk Fixture.cfg Scenario.env_update_fails
                      Scenario.aenv_ok)
               (Fixture.request "alice" (Scenario.thumbnail_form (Scenario.typed "image/png")))
               Fixture.world0).2) as Hin.
  { vm_compute. tauto. }
  split; [exact Hin|].
  destruct (X17_thumbnail_file_kept_on_update_failure _ _ _ _ _ _ _ Hin)
    as (_ & Hdb & _ & _).
  split; [exact Hdb|]. vm_compute. reflexivity.
Defined.

(** X18: the disk revision of [handlerUploadThumbnail] creates the asset file
    in place with [os.Create], which truncates.  When the copy then fails,
    the response is 500 and the record is unchanged, but whatever was at the
    asset's disk path before (an earlier thumbnail of the video) has been
    replaced by the bytes written before the failure. *)
Theorem X18_thumbnail_overwritten_on_copy_failure
    (cfg : apiConfig) (env : Env) (aenv : Thumbnail.AssetEnv) (r : Request) (w : World)
    (videoID : UUID) (token mediaType : string) (header : FileHeader) (video : Video)
    (written : list byte) (err : error) :
  let assetDiskPath :=
    Thumbnail.getAssetDiskPath aenv (Thumbnail.getAssetPath aenv videoID mediaType) in
  uuid_Parse env (PathValue r "videoID") = Ok videoID ->
  auth_GetBearerToken env (ReqHeader r) = Ok token ->
  auth_ValidateJWT env token (jwtSecret cfg) = Ok (UserID video) ->
  fst (FormFile r "thumbnail") = Ok header ->
  mime_ParseMediaType env (Header_Get (Header header) "Content-Type") = Ok mediaType ->
  mediaType = "image/jpg" \/ mediaType = "image/png" ->
  db w !! videoID = Some video ->
  Thumbnail.os_Create aenv assetDiskPath = None ->
  io_Copy env (content header) = (written, Some err) ->
  let out := serve (Thumbnail.handlerUploadThumbnail_disk cfg env aenv) r w in
  responses out.2 = [(StatusInternalServerError, PError "Error when storing thumbnail")]
  /\ fs out.1 !! assetDiskPath = Some written
  /\ db out.1 = db w.
Proof.
  cbv zeta. intros H1 H2 H3 Hfile Hmime Htype Hdb Hcreate Hcopy.
  tsimpl. do 3 tcase.
  destruct (ParseMultipartForm r) as [perr r'] eqn:HP. tsimpl.
  destruct (FormFile r' "thumbnail") as [res r''] eqn:HF. tsimpl.
  rewrite (FormFile_parsed _ _ _ _ _ _ HP HF) in Hfile. cbn [fst] in Hfile. subst res. tsimpl.
  tcase.
  destruct (decide (mediaType ≠ "image/jpg" ∧ mediaType ≠ "image/png")) as [Hno|_];
    [tauto|]. tsimpl.
  tcase.
  destruct (decide (UserID video ≠ UserID video)) as [Hne|_]; [now destruct Hne|]. tsimpl.
  do 2 tcase. cbn [fst snd].
  split; [reflexivity|]. split; [apply lookup_insert_eq|reflexivity].
Qed.

Lemma X18_witness :
  let r := Fixture.request "alice" (Scenario.thumbnail_form (Scenario.typed "image/png")) in
  let out := serve (Thumbnail.handlerUploadThumbnail_disk Fixture.cfg Fixture.env_copy_fails
                      Scenario.aenv_ok) r Scenario.world_thumbnail in
  fs Scenario.world_thumbnail !! "assets/vid-1.png" = Some [x01; x02; x03]
  /\ responses out.2 = [(StatusInternalServerError, PError "Error when storing thumbnail")]
  /\ fs out.1 !! "assets/vid-1.png" = Some [x89]
  /\ db out.1 = db Scenario.world_thumbnail.
Proof.
  cbv zeta. split; [vm_compute; reflexivity|].
  apply (X18_thumbnail_overwritten_on_copy_failure Fixture.cfg Fixture.env_copy_fails
           Scenario.aenv_ok
           (Fixture.request "alice" (Scenario.thumbnail_form (Scenario.typed "image/png")))
           Scenario.world_thumbnail "vid-1" "alice" "image/png"
           (Scenario.thumbnail (Scenario.typed "image/png")) Fixture.alice_video
           [x89] "unexpected EOF");
    first [vm_compute; reflexivity | right; reflexivity].
Defined.

(** ** The thumbnail upload of [handler_upload_thumbnail.go] *)


(** X20: the [handlerUploadThumbnail] of [handler_upload_thumbnail.go], the
    data-URL revision, never looks at the declared content type: an
    owner's upload succeeds as soon as the file can be read and the record
    updated, whatever the type; with no Content-Type header at all the
    persisted URL starts with "data:;base64,". *)
Theorem X20_thumbnail_data_any_type
    (cfg : apiConfig) (env : Env) (aenv : Thumbnail.AssetEnv) (r : Request) (w : World)
    (videoID : UUID) (token : string) (header : FileHeader) (video : Video) :
  uuid_Parse env (PathValue r "videoID") = Ok videoID ->
  auth_GetBearerToken env (ReqHeader r) = Ok token ->
  auth_ValidateJWT env token (jwtSecret cfg) = Ok (UserID video) ->
  fst (FormFile r "thumbnail") = Ok header ->
  Thumbnail.io_ReadAll aenv (content header) = None ->
  db w !! videoID = Some video ->
  (forall v, db_UpdateVideo env v = None) ->
  let url := "data:" +:+ Header_Get (Header header) "Content-Type"
             +:+ ";base64," +:+ StdEncodeToString (content header) in
  responses (serve (Thumbnail.handlerUploadThumbnail cfg env aenv) r w).2
  = [(200, PVideo (set_ThumbnailURL video url))]
  /\ (Header header !! "Content-Type" = None ->
      url = "data:;base64," +:+ StdEncodeToString (content header)).
Proof.
  cbv zeta. intros H1 H2 H3 Hfile Hread Hdb Hupdate.
  split.
  - tsimpl. do 3 tcase.
    destruct (ParseMultipartForm r) as [perr r'] eqn:HP. tsimpl.
    destruct (FormFile r' "thumbnail") as [res r''] eqn:HF. tsimpl.
    rewrite (FormFile_parsed _ _ _ _ _ _ HP HF) in Hfile. cbn [fst] in Hfile. subst res. tsimpl.
    do 2 tcase.
    destruct (decide (UserID video ≠ UserID video)) as [Hne|_]; [now destruct Hne|]. tsimpl.
    rewrite Hupdate. tsimpl. reflexivity.
  - intros Habs. unfold Header_Get. rewrite Habs. reflexivity.
Qed.

Lemma X20_witness :
  let r := Fixture.request "alice" (Scenario.thumbnail_form ∅) in
  Header (Scenario.thumbnail ∅) !! "Content-Type" = None
  /\ responses (serve (Thumbnail.handlerUploadThumbnail Fixture.cfg
                         (Fixture.env_ok [] []) Scenario.aenv_ok) r Fixture.world0).2
     = [(200, PVideo (set_ThumbnailURL Fixture.alice_video "data:;base64,iVBORw=="))].
Proof.
  cbv zeta. split; [reflexivity|].
  refine (proj1 (X20_thumbnail_data_any_type Fixture.cfg (Fixture.env_ok [] [])
                   Scenario.aenv_ok
                   (Fixture.request "alice" (Scenario.thumbnail_form ∅)) Fixture.world0
                   "vid-1" "alice" (Scenario.thumbnail ∅) Fixture.alice_video
                   _ _ _ _ _ _ _));
    first [vm_compute; reflexivity | intros; reflexivity].
Defined.

(** ** The direct revision: staged file *)

(** X21: in the direct revision a temporary file that was created is gone
    when the handler is done, on every path (a failed copy, a failed probe, a
    failed upload or update included), and the handler removes no other
    file. *)
Theorem X21_direct_removes_only_staged_file
    (cfg : apiConfig) (env : Env) (r : Request) (w : World) (name : string) :
  let out := serve (Direct.handlerUploadVideo cfg env) r w in
  In (ECreateTemp name) out.2 ->
  fs out.1 !! name = None
  /\ In (ERemove name) out.2
  /\ (forall path, In (ERemove path) out.2 -> path = name)
  /\ (forall path, path ≠ name -> fs out.1 !! path = fs w !! path).
Proof.
  cbv zeta. hsimpl. repeat hcase.
  all: cbn [fst snd]; intros Hin; in_cases Hin; injection Hin as <-.
  all: split; [apply lookup_delete_eq|].
  all: split; [in_list|].
  all: split; [intros path Hrm; in_cases Hrm; now injection Hrm|].
  all: intros path Hne; rewrite lookup_delete_ne by congruence.
  all: rewrite ?lookup_insert_ne by congruence; reflexivity.
Qed.

Lemma X21_witness :
  let r := Fixture.request "alice" (Fixture.video_form ["video/mp4"]) in
  let out := serve (Direct.handlerUploadVideo Fixture.cfg Fixture.env_probe_fails)
               r Fixture.world0 in
  In (ECreateTemp "/tmp/tubely-upload.mp442") out.2
  /\ responses out.2 = [(500, PError "Error when fetching video ratio")]
  /\ fs out.1 !! "/tmp/tubely-upload.mp442" = None.
Proof.
  cbv zeta.
  assert (In (ECreateTemp "/tmp/tubely-upload.mp442")
            (serve (Direct.handlerUploadVideo Fixture.cfg Fixture.env_probe_fails)
               (Fixture.request "alice" (Fixture.video_form ["video/mp4"]))
               Fixture.world0).2) as Hin.
  { vm_compute. tauto. }
  split; [exact Hin|]. split; [vm_compute; reflexivity|].
  exact (proj1 (X21_direct_removes_only_staged_file _ _ _ _ _ Hin)).
Defined.

(** X22: the object the direct revision uploads is the staged file as the
    copy left it: its body is what was copied from the "video" form file, its
    content type is "video/mp4" and its bucket the configured one. *)
Theorem X22_direct_uploads_staged_bytes
    (cfg : apiConfig) (env : Env) (r : Request) (w : World)
    (bucket key ct : string) (body : list byte) :
  let out := serve (Direct.handlerUploadVideo cfg env) r w in
  In (EPutObject bucket key ct body) out.2 ->
  exists header r',
    FormFile r "video" = (Ok header, r')
    /\ body = (io_Copy env (content header)).1
    /\ ct = "video/mp4"
    /\ bucket = s3Bucket cfg.
Proof.
  cbv zeta. hsimpl. repeat hcase.
  all: cbn [fst snd]; intros Hin; in_cases Hin; injection Hin as <- <- <- <-.
  all: eexists _, _; (split; [eapply FormFile_parsed; eassumption|]).
  all: split; [|split; [video_mp4; reflexivity|reflexivity]].
  all: rewrite lookup_insert_eq;
       match goal with H : io_Copy _ _ = _ |- _ => rewrite H end; reflexivity.
Qed.

Lemma X22_witness :
  let r := Fixture.request "alice" (Fixture.video_form ["video/mp4"]) in
  let env := Fixture.env_ok [Fixture.stream "video" "9:16"] [x01; x02] in
  let out := serve (Direct.handlerUploadVideo Fixture.cfg env) r Fixture.world0 in
  In (EPutObject "tubely" "portrait/AQIAAAAAAAAAAAAAAAAAAAAAAAAAAAAAAAAAAAAAAAA.mp4"
        "video/mp4" [x00; x00; x00; x18]) out.2
  /\ exists header r',
       FormFile r "video" = (Ok header, r')
       /\ [x00; x00; x00; x18] = (io_Copy env (content header)).1
       /\ "video/mp4" = "video/mp4"
       /\ "tubely" = s3Bucket Fixture.cfg.
Proof.
  cbv zeta.
  assert (In (EPutObject "tubely" "portrait/AQIAAAAAAAAAAAAAAAAAAAAAAAAAAAAAAAAAAAAAAAA.mp4"
                "video/mp4" [x00; x00; x00; x18])
            (serve (Direct.handlerUploadVideo Fixture.cfg
                      (Fixture.env_ok [Fixture.stream "video" "9:16"] [x01; x02]))
               (Fixture.request "alice" (Fixture.video_form ["video/mp4"]))
               Fixture.world0).2) as Hin.
  { vm_compute. tauto. }
  split; [exact Hin|].
  exact (X22_direct_uploads_staged_bytes _ _ _ _ _ _ _ _ Hin).
Defined.
